(** * OpenFPA planning and forecasting analytics engine: a shallow embedding

    The Python sources embedded here are
      - [app/services/analytics/driver_based_planning.py]
      - [app/services/forecasting.py]
      - [app/services/planning/revenue_planning.py]
      - [app/api/planning_routes.py]
      - [app/api/simple_analytics_routes.py]
      - [app/services/variance_analysis.py]

    Conventions of the embedding.
      - A Python [float] (and a SQL [NUMERIC]) is a rational number [Q]:
        arithmetic is exact, comparisons are the ones of the code.  Where
        the code can produce a NaN that a claim depends on, the value is an
        [option Q] and [None] stands for NaN.
      - A Python [dict] is an association list in insertion order.
      - A raised exception is the [Raise] outcome of the [Res] monad.
      - Functions of numpy, pandas, the Python runtime and the database that
        are not part of the repository ([np.sqrt], [float(str)], [str(float)],
        [eval], the clock, the random generator, query results) are
        parameters of the definitions that call them. *)

From Stdlib Require Import QArith ZArith List String Ascii Bool Lia Lqa.
From Stdlib Require Import Qround Qabs DecimalString.
From Stdlib Require Import Sorted Permutation.
Import ListNotations.

Open Scope Q_scope.

(** ** Python runtime *)

Module Py.

Inductive PyExc : Type :=
| ValueError
| KeyError
| TypeError
| AttributeError
| IndexError
| ZeroDivisionError
| InvalidFormula.   (* named by the specification only: no source line raises it *)

Inductive Res (A : Type) : Type :=
| Ok (a : A)
| Raise (e : PyExc).

Arguments Ok {A} a.
Arguments Raise {A} e.

Definition bind {A B : Type} (m : Res A) (k : A -> Res B) : Res B :=
  match m with
  | Ok a => k a
  | Raise e => Raise e
  end.

Definition of_option {A : Type} (e : PyExc) (o : option A) : Res A :=
  match o with
  | Some a => Ok a
  | None => Raise e
  end.

(** [d.get(k)] / [k in d] / [d[k] = v] on a dict kept in insertion order. *)
Definition dict (V : Type) : Type := list (string * V).

Fixpoint dict_get {V : Type} (k : string) (d : dict V) : option V :=
  match d with
  | [] => None
  | (k', v) :: d' => if String.eqb k k' then Some v else dict_get k d'
  end.

Definition dict_mem {V : Type} (k : string) (d : dict V) : bool :=
  match dict_get k d with
  | Some _ => true
  | None => false
  end.

Fixpoint dict_set {V : Type} (k : string) (v : V) (d : dict V) : dict V :=
  match d with
  | [] => [(k, v)]
  | (k', v') :: d' =>
      if String.eqb k k' then (k', v) :: d' else (k', v') :: dict_set k v d'
  end.

Definition dict_keys {V : Type} (d : dict V) : list string := map fst d.
Definition dict_values {V : Type} (d : dict V) : list V := map snd d.

(** Truth value of a float: [if x:] is false exactly for zero. *)
Definition truthy (x : Q) : bool := negb (Qeq_bool x 0).

Definition Qlt_bool (x y : Q) : bool := negb (Qle_bool y x).

(** [max(0, x)]: Python keeps the first argument unless the second is greater. *)
Definition max0 (x : Q) : Q := if Qlt_bool 0 x then x else 0.

Definition Qsum (l : list Q) : Q := fold_left Qplus l 0.

(** [max(x, *l)] and [min(x, *l)] *)
Definition list_max (x : Q) (l : list Q) : Q :=
  fold_left (fun m y => if Qlt_bool m y then y else m) l x.

Definition list_min (x : Q) (l : list Q) : Q :=
  fold_left (fun m y => if Qlt_bool y m then y else m) l x.

(** [f"{year}-{month:02d}"] *)
Definition str_int (z : Z) : string := NilZero.string_of_int (Z.to_int z).

Definition format_period (year month : Z) : string :=
  str_int year ++ "-" ++ (if (0 <=? month)%Z && (month <? 10)%Z then "0" else "") ++ str_int month.

(** [s.split(sep)] for a one-character separator. *)
Fixpoint str_split (sep : ascii) (s : string) : list string :=
  match s with
  | EmptyString => [EmptyString]
  | String c s' =>
      if Ascii.eqb c sep then EmptyString :: str_split sep s'
      else match str_split sep s' with
           | [] => [String c EmptyString]
           | w :: ws => String c w :: ws
           end
  end.

(** [c in s] for a one-character [c]. *)
Fixpoint str_contains (c : ascii) (s : string) : bool :=
  match s with
  | EmptyString => false
  | String c' s' => Ascii.eqb c c' || str_contains c s'
  end.

(** [s.replace(old, new)] for a non-empty [old]: leftmost non-overlapping
    occurrences.  [skip] counts the characters of a match still to drop. *)
Fixpoint replace_from (old new : string) (skip : nat) (s : string) : string :=
  match s with
  | EmptyString => EmptyString
  | String c s' =>
      match skip with
      | S k => replace_from old new k s'
      | O =>
          if String.prefix old s
          then new ++ replace_from old new (String.length old - 1) s'
          else String c (replace_from old new 0 s')
      end
  end.

Definition str_replace (old new s : string) : string := replace_from old new 0 s.

(** [round(x, n)] : nearest multiple of [10^-n], ties to even. *)
Definition round_half_even (x : Q) : Z :=
  let f := Qfloor x in
  let r := x - inject_Z f in
  if Qlt_bool r (1 # 2) then f
  else if Qlt_bool (1 # 2) r then (f + 1)%Z
  else if Z.even f then f else (f + 1)%Z.

Definition py_round (x : Q) (n : nat) : Q :=
  let scale := inject_Z (10 ^ Z.of_nat n) in
  inject_Z (round_half_even (x * scale)) / scale.

End Py.

Import Py.

Declare Scope py_scope.
Notation "x <- m ;; k" := (bind m (fun x => k))
  (at level 61, m at next level, right associativity) : py_scope.
Open Scope py_scope.
Open Scope string_scope.

(** ** numpy / pandas / sklearn arithmetic used by the services *)

Module Stats.

Definition Qlen (l : list Q) : Q := inject_Z (Z.of_nat (List.length l)).

(** [np.mean(l)] *)
Definition mean (l : list Q) : Q := Qsum l / Qlen l.

(** [np.diff(l)] *)
Fixpoint diff (l : list Q) : list Q :=
  match l with
  | a :: (b :: _) as t => (b - a) :: diff t
  | _ => []
  end.

Definition sq (x : Q) : Q := x * x.

(** Sum of squared deviations from the mean. *)
Definition ss_dev (l : list Q) : Q := Qsum (map (fun x => sq (x - mean l)) l).

(** Population variance ([np.std] squared, ddof = 0). *)
Definition variance_pop (l : list Q) : Q := ss_dev l / Qlen l.

(** Sample variance ([Series.std] squared, ddof = 1), for two values or more. *)
Definition variance_sample (l : list Q) : Q := ss_dev l / (Qlen l - 1).

(** Least-squares line through [(x_i, y_i)]: [(slope, intercept)].  This is
    [np.polyfit(x, y, 1)] and [LinearRegression().fit]; the closed form is
    theirs when the abscissae hold two distinct values or more. *)
Definition polyfit1 (xs ys : list Q) : Q * Q :=
  let n := Qlen xs in
  let sx := Qsum xs in
  let sy := Qsum ys in
  let sxy := Qsum (map (fun xy => fst xy * snd xy) (combine xs ys)) in
  let sxx := Qsum (map sq xs) in
  let slope := (n * sxy - sx * sy) / (n * sxx - sx * sx) in
  (slope, (sy - slope * sx) / n).

(** [np.arange(n)] *)
Definition arange (n : nat) : list Q := map (fun i => inject_Z (Z.of_nat i)) (seq 0 n).

(** [np.poly1d(coefficients)(x)], highest degree first. *)
Definition poly1d (coefficients : list Q) (x : Q) : Q :=
  fold_left (fun acc c => acc * x + c) coefficients 0.

(** A rational square root, exact to six decimals from below: the stand-in
    for [np.sqrt] where the embedding is run. *)
Definition sqrt6 (x : Q) : Q :=
  inject_Z (Z.sqrt (Qfloor (x * inject_Z (10 ^ 12)))) / inject_Z (10 ^ 6).

End Stats.

(** ** app/services/analytics/driver_based_planning.py *)

Module DriverBasedPlanning.

(** A row of [driver_relationships] (models.py, class DriverRelationship):
    [coefficient] and [formula] are nullable columns. *)
Record DriverRelationship : Type := {
  id : string;
  business_driver_id : string;
  gl_account_id : string;
  cost_center_id : option string;
  relationship_type : string;
  coefficient : option Q;
  formula : option string;
  is_active : bool
}.


Record PeriodForecast : Type := {
  period_id : string;
  account_values : dict Q;
  total_revenue : Q;
  total_expenses : Q;
  ebitda : Q;
  ebitda_margin : Q
}.

Record Summary : Type := {
  sum_total_revenue : Q;
  sum_total_expenses : Q;
  sum_ebitda : Q;
  sum_ebitda_margin : Q
}.

Record Forecast : Type := {
  scenario_id : string;
  periods : list PeriodForecast;
  summary : Summary
}.

Record SensitivityPoint : Type := {
  variation_pct : Q;
  revenue : Q;
  expenses : Q;
  sp_ebitda : Q;
  sp_ebitda_margin : Q
}.

Record ImpactSummary : Type := {
  revenue_sensitivity : Q;
  ebitda_sensitivity : Q;
  max_ebitda_margin : Q;
  min_ebitda_margin : Q;
  breakeven_point : option Q
}.

Record SensitivityAnalysis : Type := {
  sa_driver_id : string;
  base_scenario_id : string;
  sensitivity_results : list SensitivityPoint;
  impact_summary : option ImpactSummary
}.

(** The inner dicts of [base_values] are objects: the outer dict holds
    their addresses, and [dict.copy()] copies the addresses only. *)
Definition Heap : Type := list (dict Q).

Definition heap_get (h : Heap) (l : nat) : dict Q := nth l h [].

Fixpoint heap_set (h : Heap) (l : nat) (d : dict Q) : Heap :=
  match h, l with
  | [], _ => []
  | _ :: h', O => d :: h'
  | x :: h', S l' => x :: heap_set h' l' d
  end.

Definition deref (h : Heap) (outer : dict nat) : dict (dict Q) :=
  map (fun kl => (fst kl, heap_get h (snd kl))) outer.

(** [np.linspace(lo, hi, steps)] *)
Definition linspace (lo hi : Q) (steps : nat) : list Q :=
  match steps with
  | O => []
  | S O => [lo]
  | S n =>
      map (fun i => lo + inject_Z (Z.of_nat i) * ((hi - lo) / inject_Z (Z.of_nat n)))
          (seq 0 steps)
  end.

(** [_calculate_impact_summary] *)
Definition _calculate_impact_summary (results : list SensitivityPoint)
  : option ImpactSummary :=
  match results with
  | [] => None
  | r :: rs =>
      let over (f : SensitivityPoint -> Q) (g : Q -> list Q -> Q) :=
        g (f r) (map f rs) in
      Some {| revenue_sensitivity := over revenue list_max - over revenue list_min;
              ebitda_sensitivity := over sp_ebitda list_max - over sp_ebitda list_min;
              max_ebitda_margin := over sp_ebitda_margin list_max;
              min_ebitda_margin := over sp_ebitda_margin list_min;
              breakeven_point :=
                option_map variation_pct
                  (find (fun p => Qle_bool (sp_ebitda p) 0) results) |}
  end.

Section Service.

(** [float(s)]: [None] when it raises ValueError. *)
Variable py_float : string -> option Q.
(** [str(x)] of a float. *)
Variable py_str : Q -> string.
(** [eval(src, {"__builtins__": {}}, {min, max, abs, round})]:
    [None] when it raises. *)
Variable py_eval : string -> option Q.
(** [_is_revenue_account] and [_is_expense_account]: lookups in [gl_accounts]. *)
Variable _is_revenue_account : string -> bool.
Variable _is_expense_account : string -> bool.

(** The loop of [_calculate_step_function] over [formula.split(';')]. *)
Fixpoint step_loop (driver_value : Q) (steps : list string) : Res Q :=
  match steps with
  | [] => Ok 0
  | step :: rest =>
      match str_split ":" step with
      | [range_part; value_part] =>
          if str_contains "-" range_part then
            match str_split "-" range_part with
            | [min_val; max_val] =>
                if String.eqb max_val "+" then
                  lo <- of_option ValueError (py_float min_val) ;;
                  if Qle_bool lo driver_value
                  then of_option ValueError (py_float value_part)
                  else step_loop driver_value rest
                else
                  lo <- of_option ValueError (py_float min_val) ;;
                  if Qle_bool lo driver_value then
                    hi <- of_option ValueError (py_float max_val) ;;
                    if Qle_bool driver_value hi
                    then of_option ValueError (py_float value_part)
                    else step_loop driver_value rest
                  else step_loop driver_value rest
            | _ => Raise ValueError
            end
          else step_loop driver_value rest
      | _ => Raise ValueError
      end
  end.

Definition _calculate_step_function (driver_value : Q) (formula : option string)
  : Res Q :=
  match formula with
  | None => Raise AttributeError
  | Some f => step_loop driver_value (str_split ";" f)
  end.

(** [_evaluate_formula]; the value of the evaluated text is taken to be a
    number. *)
Definition _evaluate_formula (formula : option string) (driver_value : Q)
    (all_drivers : dict (dict Q)) (period_id : string) : Res Q :=
  match formula with
  | None => Raise AttributeError
  | Some f =>
      let eval_formula := str_replace "$DRIVER" (py_str driver_value) f in
      let eval_formula :=
        fold_left
          (fun acc (kv : string * dict Q) =>
             match dict_get period_id (snd kv) with
             | Some v => str_replace ("$" ++ fst kv) (py_str v) acc
             | None => acc
             end)
          all_drivers eval_formula in
      match py_eval eval_formula with
      | Some v => Ok v
      | None => Ok 0
      end
  end.

Definition driver_value_for (driver_assumptions : dict (dict Q))
    (driver_id period_id : string) : Q :=
  match dict_get driver_id driver_assumptions with
  | Some values =>
      match dict_get period_id values with
      | Some v => v
      | None => 0
      end
  | None => 0
  end.

(** The branch on [rel['relationship_type']]. *)
Definition relationship_value (rel : DriverRelationship) (driver_value : Q)
    (account_values : dict Q) (driver_assumptions : dict (dict Q))
    (period_id : string) : Res Q :=
  if String.eqb (relationship_type rel) "linear" then
    c <- of_option TypeError (coefficient rel) ;;
    Ok (driver_value * c)
  else if String.eqb (relationship_type rel) "percentage" then
    let base_value :=
      match dict_get (gl_account_id rel) account_values with
      | Some b => b
      | None => 0
      end in
    c <- of_option TypeError (coefficient rel) ;;
    Ok (base_value * (c / 100))
  else if String.eqb (relationship_type rel) "step_function" then
    _calculate_step_function driver_value (formula rel)
  else if String.eqb (relationship_type rel) "custom_formula" then
    _evaluate_formula (formula rel) driver_value driver_assumptions period_id
  else Ok driver_value.

(** One iteration of [for rel in relationships]. *)
Definition relationship_step (driver_assumptions : dict (dict Q))
    (period_id : string) (account_values : dict Q) (rel : DriverRelationship)
  : Res (dict Q) :=
  let driver_value :=
    driver_value_for driver_assumptions (business_driver_id rel) period_id in
  if truthy driver_value then
    account_value <-
      relationship_value rel driver_value account_values driver_assumptions period_id ;;
    let account_values :=
      if dict_mem (gl_account_id rel) account_values then account_values
      else dict_set (gl_account_id rel) 0 account_values in
    let current :=
      match dict_get (gl_account_id rel) account_values with
      | Some v => v
      | None => 0
      end in
    Ok (dict_set (gl_account_id rel) (current + account_value) account_values)
  else Ok account_values.

Fixpoint relationships_loop (driver_assumptions : dict (dict Q))
    (period_id : string) (account_values : dict Q)
    (relationships : list DriverRelationship) : Res (dict Q) :=
  match relationships with
  | [] => Ok account_values
  | rel :: rest =>
      account_values' <-
        relationship_step driver_assumptions period_id account_values rel ;;
      relationships_loop driver_assumptions period_id account_values' rest
  end.

Definition sum_where (p : string -> bool) (account_values : dict Q) : Q :=
  Qsum (map snd (filter (fun kv => p (fst kv)) account_values)).

(** [_calculate_period_forecast]; [relationships] is the result of its
    query (active relationships of active drivers of the company).  The
    budget lines it stores through [_create_budget_line] are writes to
    the database and do not reach the returned value. *)
Definition _calculate_period_forecast (relationships : list DriverRelationship)
    (period : string) (driver_assumptions : dict (dict Q)) : Res PeriodForecast :=
  account_values <- relationships_loop driver_assumptions period [] relationships ;;
  let revenue := sum_where _is_revenue_account account_values in
  let expenses := sum_where _is_expense_account account_values in
  let ebitda := revenue - expenses in
  Ok {| period_id := period;
        account_values := account_values;
        total_revenue := revenue;
        total_expenses := expenses;
        ebitda := ebitda;
        ebitda_margin := if truthy revenue then ebitda / revenue * 100 else 0 |}.

Fixpoint periods_loop (relationships : list DriverRelationship)
    (fiscal_periods : list string) (driver_assumptions : dict (dict Q))
  : Res (list PeriodForecast) :=
  match fiscal_periods with
  | [] => Ok []
  | p :: ps =>
      r <- _calculate_period_forecast relationships p driver_assumptions ;;
      rs <- periods_loop relationships ps driver_assumptions ;;
      Ok (r :: rs)
  end.

Definition calculate_driver_based_forecast (relationships : list DriverRelationship)
    (scenario : string) (fiscal_periods : list string)
    (driver_assumptions : dict (dict Q)) : Res Forecast :=
  results <- periods_loop relationships fiscal_periods driver_assumptions ;;
  let total_revenue := Qsum (map total_revenue results) in
  let total_expenses := Qsum (map total_expenses results) in
  let total_ebitda := Qsum (map ebitda results) in
  Ok {| scenario_id := scenario;
        periods := results;
        summary :=
          {| sum_total_revenue := total_revenue;
             sum_total_expenses := total_expenses;
             sum_ebitda := total_ebitda;
             sum_ebitda_margin :=
               if truthy total_revenue
               then total_ebitda / total_revenue * 100 else 0 |} |}.

(** The inner loop of [perform_sensitivity_analysis]:
    [for period in adjusted_values.get(driver_id, {})], writing through
    the address that [adjusted_values] shares with [base_values]. *)
Definition adjust_driver (h : Heap) (adjusted_values : dict nat)
    (driver_id : string) (variation : Q) : Heap :=
  match dict_get driver_id adjusted_values with
  | None => h
  | Some l =>
      fold_left
        (fun h period =>
           match dict_get period (heap_get h l) with
           | Some original =>
               heap_set h l
                 (dict_set period (original * (1 + variation / 100)) (heap_get h l))
           | None => h
           end)
        (dict_keys (heap_get h l)) h
  end.

Fixpoint variations_loop (relationships : list DriverRelationship)
    (base_scenario : string) (driver_id : string)
    (base_values : dict nat) (h : Heap) (variations : list Q)
  : Res (Heap * list SensitivityPoint) :=
  match variations with
  | [] => Ok (h, [])
  | variation :: rest =>
      (* adjusted_values = base_values.copy() *)
      let adjusted_values := base_values in
      let h := adjust_driver h adjusted_values driver_id variation in
      (* list(base_values[driver_id].keys()) *)
      l <- of_option KeyError (dict_get driver_id base_values) ;;
      forecast <-
        calculate_driver_based_forecast relationships base_scenario
          (dict_keys (heap_get h l)) (deref h adjusted_values) ;;
      let point :=
        {| variation_pct := variation;
           revenue := sum_total_revenue (summary forecast);
           expenses := sum_total_expenses (summary forecast);
           sp_ebitda := sum_ebitda (summary forecast);
           sp_ebitda_margin := sum_ebitda_margin (summary forecast) |} in
      hr <- variations_loop relationships base_scenario driver_id base_values h rest ;;
      Ok (fst hr, point :: snd hr)
  end.

(** [perform_sensitivity_analysis]; [base_values] with the heap [h] is
    what [_get_driver_values(base_scenario_id)] returned. *)
Definition perform_sensitivity_analysis (relationships : list DriverRelationship)
    (base_scenario : string) (driver_id : string)
    (base_values : dict nat) (h : Heap)
    (variation_range : Q * Q) (steps : nat) : Res (Heap * SensitivityAnalysis) :=
  let variations := linspace (fst variation_range) (snd variation_range) steps in
  hr <- variations_loop relationships base_scenario driver_id base_values h variations ;;
  Ok (fst hr,
      {| sa_driver_id := driver_id;
         base_scenario_id := base_scenario;
         sensitivity_results := snd hr;
         impact_summary := _calculate_impact_summary (snd hr) |}).

End Service.

(** An inner dict with every value moved by [v] percent. *)
Definition scaled (v : Q) (d : dict Q) : dict Q :=
  map (fun kv => (fst kv, snd kv * (1 + v / 100))) d.


(** The relationships of which C10 speaks: the driver has no entry for the
    period, or its entry is zero. *)
Definition driver_missing_or_zero (driver_assumptions : dict (dict Q))
    (period : string) (rel : DriverRelationship) : bool :=
  match dict_get (business_driver_id rel) driver_assumptions with
  | None => true
  | Some values =>
      match dict_get period values with
      | None => true
      | Some v => Qeq_bool v 0
      end
  end.










End DriverBasedPlanning.


(** ** app/models/models.py *)

Module Models.

(** [class AccountType(enum.Enum)]: a plain enumeration, not a [str] one. *)
Inductive AccountType : Type := ASSET | LIABILITY | EQUITY | REVENUE | EXPENSE.

Definition AccountType_eqb (a b : AccountType) : bool :=
  match a, b with
  | ASSET, ASSET | LIABILITY, LIABILITY | EQUITY, EQUITY
  | REVENUE, REVENUE | EXPENSE, EXPENSE => true
  | _, _ => false
  end.

(** The values that meet in [row.account_type == "expense"]. *)
Inductive PyValue : Type :=
| PyEnum (member : AccountType)
| PyStr (s : string).

(** [==]: members of a plain [enum.Enum] compare by identity, and never
    equal a value that is not a member. *)
Definition py_eq (x y : PyValue) : bool :=
  match x, y with
  | PyEnum a, PyEnum b => AccountType_eqb a b
  | PyStr s, PyStr t => String.eqb s t
  | _, _ => false
  end.

End Models.

(** ** app/api/simple_analytics_routes.py : get_variance_analysis *)

Module SimpleAnalyticsRoutes.
Import Models.

(** A row of the variance query: [account_type] is the column
    [GLAccount.account_type], of type [SQLEnum(AccountType)]. *)
Record VarianceRow : Type := {
  account_code : string;
  account_name : string;
  account_type : AccountType;
  budget : Q;
  actual : Q
}.

Record Variance : Type := {
  v_account_code : string;
  v_account_name : string;
  v_account_type : AccountType;
  v_budget : Q;
  v_actual : Q;
  v_variance : Q;
  variance_percentage : Q;
  status : string
}.

(** The two conditional expressions that pick the status. *)
Definition expense_status (variance : Q) : string :=
  if Qlt_bool variance 0 then "favorable"
  else if Qlt_bool 0 variance then "unfavorable" else "neutral".

Definition revenue_status (variance : Q) : string :=
  if Qlt_bool 0 variance then "favorable"
  else if Qlt_bool variance 0 then "unfavorable" else "neutral".

(** [variance_pct = (variance / budget * 100) if budget != 0 else 0] *)
Definition variance_pct (actual budget : Q) : Q :=
  if negb (Qeq_bool budget 0) then (actual - budget) / budget * 100 else 0.

(** The body of [for row in variance_data]: the entry appended to
    [variances], if any. *)
Definition variance_entry (row : VarianceRow) : option Variance :=
  let budget := budget row in
  let actual := actual row in
  let variance := actual - budget in
  let variance_pct := variance_pct actual budget in
  let status :=
    if py_eq (PyEnum (account_type row)) (PyStr "expense")
    then expense_status variance
    else revenue_status variance in
  if negb (Qeq_bool budget 0) || negb (Qeq_bool actual 0) then
    Some {| v_account_code := account_code row;
            v_account_name := account_name row;
            v_account_type := account_type row;
            v_budget := py_round budget 2;
            v_actual := py_round actual 2;
            v_variance := py_round variance 2;
            variance_percentage := py_round variance_pct 2;
            status := status |}
  else None.

Definition get_variance_analysis (variance_data : list VarianceRow) : list Variance :=
  flat_map (fun row => match variance_entry row with
                       | Some v => [v]
                       | None => []
                       end)
           variance_data.

End SimpleAnalyticsRoutes.

(** ** app/services/variance_analysis.py : calculate_variance_for_period *)

Module VarianceAnalysis.

(** [COALESCE(x, 0)] *)
Definition coalesce0 (x : option Q) : Q :=
  match x with
  | Some v => v
  | None => 0
  end.

(** The column [variance_amount] of the query; [None] in an argument is
    SQL NULL (no actuals, or no budget, joined to the account). *)
Definition variance_amount (actual_amount budget_amount : option Q) : Q :=
  coalesce0 actual_amount - coalesce0 budget_amount.

(** The column [variance_percentage]:
    [CASE WHEN COALESCE(budget, 0) = 0 THEN NULL
          ELSE ((COALESCE(actual, 0) - COALESCE(budget, 0)) / ABS(budget)) * 100 END] *)
Definition variance_percentage (actual_amount budget_amount : option Q) : option Q :=
  if Qeq_bool (coalesce0 budget_amount) 0 then None
  else Some ((coalesce0 actual_amount - coalesce0 budget_amount)
             / Qabs (coalesce0 budget_amount) * 100).

End VarianceAnalysis.

(** The variance percentage as the specification words it:
    [(actual - planned) / planned * 100], and null when [planned = 0]. *)
Definition spec_variance_pct (actual planned : Q) : option Q :=
  if Qeq_bool planned 0 then None
  else Some ((actual - planned) / planned * 100).

(** ** app/services/forecasting.py *)

Module Forecasting.
Import Stats.

(** A row of [get_historical_data] (the dates of the period are not used). *)
Record HistoricalRow : Type := {
  fiscal_year : Z;
  period_number : Z;
  actual_amount : Q
}.

(** What a strategy returns: the dict [{'error': msg}] or its forecast. *)
Inductive Outcome (A : Type) : Type :=
| Error (msg : string)
| Forecast (result : A).

Arguments Error {A} msg.
Arguments Forecast {A} result.

Record LinearPoint : Type := {
  period_index : nat;
  forecasted_amount : Q;
  confidence_interval_low : Q;
  confidence_interval_high : Q;
  confidence_score : Q
}.

Record LinearForecast : Type := {
  l_model_type : string;
  l_r2_score : Q;
  l_mape : Q;
  l_forecasts : list LinearPoint;
  historical_periods_used : nat
}.

Record SeasonalPattern : Type := {
  sp_period_number : Z;
  sp_mean : Q;
  sp_std : option Q;      (* None: NaN *)
  sp_count : nat
}.

Record SeasonalPoint : Type := {
  s_period_number : Z;
  s_fiscal_year : Z;
  s_forecasted_amount : Q;
  s_confidence_interval_low : option Q;    (* None: NaN *)
  s_confidence_interval_high : option Q;   (* None: NaN *)
  s_confidence_score : Q
}.

Record SeasonalForecast : Type := {
  s_model_type : string;
  seasonal_patterns : list SeasonalPattern;
  trend_slope : Q;
  s_forecasts : list SeasonalPoint
}.

Record MovingAveragePoint : Type := {
  m_period_index : nat;
  m_forecasted_amount : Q;
  m_confidence_interval_low : option Q;    (* None: NaN *)
  m_confidence_interval_high : option Q;   (* None: NaN *)
  m_confidence_score : Q
}.

Record MovingAverageForecast : Type := {
  m_model_type : string;
  window_size : nat;
  latest_moving_average : Q;
  m_forecasts : list MovingAveragePoint
}.

(** A row of the query of [get_forecast_accuracy]. *)
Record AccuracyRow : Type := {
  a_forecasted_amount : Q;
  a_actual_amount : Q
}.

Record Accuracy : Type := {
  a_mape : option Q;      (* None: NaN, the mean of no term *)
  a_mae : Q;
  a_rmse : Q;
  periods_analyzed : nat
}.

(** Stable insertion sort, the order of [df.sort_values([...])]. *)
Fixpoint insert_by {A : Type} (le : A -> A -> bool) (x : A) (l : list A) : list A :=
  match l with
  | [] => [x]
  | y :: l' => if le y x then y :: insert_by le x l' else x :: l
  end.

Definition sort_by {A : Type} (le : A -> A -> bool) (l : list A) : list A :=
  fold_left (fun acc x => insert_by le x acc) l [].

Definition period_le (a b : HistoricalRow) : bool :=
  (fiscal_year a <? fiscal_year b)%Z
  || ((fiscal_year a =? fiscal_year b)%Z && (period_number a <=? period_number b)%Z).

Fixpoint dedup (l : list Z) : list Z :=
  match l with
  | a :: (b :: _) as t => if (a =? b)%Z then dedup t else a :: dedup t
  | _ => l
  end.

Definition Zmax_list (l : list Z) : Z := fold_left Z.max l (hd 0%Z l).

(** [x or y] on floats: NaN and every nonzero number are true. *)
Definition float_or (x y : option Q) : option Q :=
  match x with
  | None => None
  | Some v => if truthy v then Some v else y
  end.

Definition nan_scale (c : Q) (x : option Q) : option Q := option_map (Qmult c) x.
Definition nan_sub (a : Q) (x : option Q) : option Q := option_map (fun v => a - v) x.
Definition nan_add (a : Q) (x : option Q) : option Q := option_map (fun v => a + v) x.

Section Strategies.

(** [np.sqrt] *)
Variable np_sqrt : Q -> Q.
(** [sklearn.metrics.r2_score] and [mean_absolute_percentage_error] *)
Variable r2_score : list Q -> list Q -> Q.
Variable mean_absolute_percentage_error : list Q -> list Q -> Q.

(** [np.std(l)] *)
Definition np_std (l : list Q) : Q := np_sqrt (variance_pop l).

(** [Series.std()]: NaN with fewer than two values. *)
Definition pd_std (l : list Q) : option Q :=
  if (List.length l <? 2)%nat then None else Some (np_sqrt (variance_sample l)).

Definition create_linear_trend_forecast (historical_data : list HistoricalRow)
    (forecast_periods : nat) : Outcome LinearForecast :=
  if (List.length historical_data <? 6)%nat then Error "Insufficient historical data"
  else
    let amounts := map actual_amount historical_data in
    let df := combine (arange (List.length historical_data)) amounts in
    let mean_amount := mean amounts in
    let std_amount := np_sqrt (variance_sample amounts) in
    let df_clean :=
      filter (fun r => Qle_bool (Qabs (snd r - mean_amount)) (2 * std_amount)) df in
    let df_clean := if (List.length df_clean <? 3)%nat then df else df_clean in
    let X := map fst df_clean in
    let y := map snd df_clean in
    let model := polyfit1 X y in
    let predict (x : Q) := fst model * x + snd model in
    let y_pred := map predict X in
    let r2 := r2_score y y_pred in
    let mape :=
      if negb (Qeq_bool (list_min (hd 0 y) y) 0)
      then mean_absolute_percentage_error y y_pred else 0 in
    let point (i : nat) :=
      let future_index := (List.length df + i)%nat in
      let predicted_amount := predict (inject_Z (Z.of_nat future_index)) in
      let residuals := map (fun p => fst p - snd p) (combine y y_pred) in
      let std_residual := np_std residuals in
      let confidence_interval := (196 # 100) * std_residual in
      {| period_index := future_index;
         forecasted_amount := predicted_amount;
         confidence_interval_low := predicted_amount - confidence_interval;
         confidence_interval_high := predicted_amount + confidence_interval;
         confidence_score := r2 |} in
    Forecast {| l_model_type := "linear_regression";
                l_r2_score := r2;
                l_mape := mape;
                l_forecasts := map point (seq 0 forecast_periods);
                historical_periods_used := List.length df_clean |}.

(** [df.groupby('period_number')['actual_amount'].agg(['mean','std','count'])] *)
Definition groupby_period_number (df : list HistoricalRow) : list SeasonalPattern :=
  let keys := dedup (sort_by Z.leb (map period_number df)) in
  map (fun k =>
         let group :=
           map actual_amount (filter (fun r => (period_number r =? k)%Z) df) in
         {| sp_period_number := k;
            sp_mean := mean group;
            sp_std := pd_std group;
            sp_count := List.length group |})
      keys.

Definition create_seasonal_forecast (historical_data : list HistoricalRow)
    (forecast_periods : nat) : Outcome SeasonalForecast :=
  if (List.length historical_data <? 12)%nat
  then Error "Insufficient data for seasonal analysis"
  else
    let df := historical_data in
    let amounts := map actual_amount df in
    let patterns := groupby_period_number df in
    let df_sorted := sort_by period_le df in
    let slope :=
      fst (polyfit1 (arange (List.length df_sorted)) (map actual_amount df_sorted)) in
    let current_year := Zmax_list (map fiscal_year df) in
    let max_period := Zmax_list (map period_number df) in
    let point (i : nat) :=
      let period_num := (((max_period + Z.of_nat i) mod 12) + 1)%Z in
      let forecast_year := (current_year + (max_period + Z.of_nat i) / 12)%Z in
      let seasonal_data :=
        filter (fun sp => (sp_period_number sp =? period_num)%Z) patterns in
      let seasonal :=
        match seasonal_data with
        | sp :: _ => (sp_mean sp, sp_std sp)
        | [] => (mean amounts, pd_std amounts)
        end in
      let trend_adjustment := slope * inject_Z (Z.of_nat (List.length df + i)) in
      let forecasted_amount := fst seasonal + trend_adjustment in
      let confidence_interval :=
        nan_scale (196 # 100) (float_or (snd seasonal) (pd_std amounts)) in
      {| s_period_number := period_num;
         s_fiscal_year := forecast_year;
         s_forecasted_amount := forecasted_amount;
         s_confidence_interval_low := nan_sub forecasted_amount confidence_interval;
         s_confidence_interval_high := nan_add forecasted_amount confidence_interval;
         s_confidence_score := 8 # 10 |} in
    Forecast {| s_model_type := "seasonal";
                seasonal_patterns := patterns;
                trend_slope := slope;
                s_forecasts := map point (seq 0 forecast_periods) |}.

(** [create_moving_average_forecast], for a window of one period or more. *)
Definition create_moving_average_forecast (historical_data : list HistoricalRow)
    (window : nat) (forecast_periods : nat) : Outcome MovingAverageForecast :=
  if (List.length historical_data <? window)%nat
  then Error "Insufficient data for moving average"
  else
    let df := sort_by period_le historical_data in
    let recent_values :=
      skipn (List.length df - window) (map actual_amount df) in
    let latest_ma := mean recent_values in
    let std_dev := pd_std recent_values in
    let point (i : nat) :=
      let confidence_interval := nan_scale (196 # 100) std_dev in
      {| m_period_index := (i + 1)%nat;
         m_forecasted_amount := latest_ma;
         m_confidence_interval_low := nan_sub latest_ma confidence_interval;
         m_confidence_interval_high := nan_add latest_ma confidence_interval;
         m_confidence_score := 7 # 10 |} in
    Forecast {| m_model_type := "moving_average";
                window_size := window;
                latest_moving_average := latest_ma;
                m_forecasts := map point (seq 0 forecast_periods) |}.

Definition get_forecast_accuracy (data : list AccuracyRow) : Outcome Accuracy :=
  if (List.length data <? 2)%nat
  then Error "Insufficient data for accuracy calculation"
  else
    let pairs := map (fun row => (a_actual_amount row, a_forecasted_amount row)) data in
    let terms :=
      map (fun af => Qabs ((fst af - snd af) / fst af))
          (filter (fun af => negb (Qeq_bool (fst af) 0)) pairs) in
    Forecast {| a_mape := match terms with
                          | [] => None
                          | _ => Some (mean terms * 100)
                          end;
                a_mae := mean (map (fun af => Qabs (fst af - snd af)) pairs);
                a_rmse := np_sqrt (mean (map (fun af => sq (fst af - snd af)) pairs));
                periods_analyzed := List.length data |}.

End Strategies.

End Forecasting.

(** ** app/services/planning/revenue_planning.py *)

Module RevenuePlanning.
Import Stats.

Record HistoricalRevenue : Type := {
  year : Z;
  month : Z;
  period : string;
  revenue : Q;
  type_ : string
}.

(** The keys of [forecast_params] that the embedded functions read;
    [None] is an absent key. *)
Record Params : Type := {
  method : option string;
  forecast_months : option nat;
  trend_type : option string;
  growth_rate : option Q;
  polynomial_degree : option nat;
  confidence_level : option Q
}.

Definition get {A : Type} (o : option A) (default : A) : A :=
  match o with
  | Some a => a
  | None => default
  end.

Record ForecastEntry : Type := {
  fe_month : nat;
  fe_period : string;
  forecast : Q;
  fe_method : string
}.

Record ConfidenceInterval : Type := {
  ci_period : string;
  ci_forecast : Q;
  lower : Q;
  upper : Q;
  ci_confidence_level : Q
}.

(** The dict returned by [_trend_analysis_forecast]; its [growth_metrics],
    derived from the same two lists, is left out. *)
Record TrendForecast : Type := {
  forecast_data : list ForecastEntry;
  confidence_intervals : list ConfidenceInterval;
  tf_method : string;
  total_forecast : Q
}.

(** [revenues[-3:]] *)
Definition last3 (l : list Q) : list Q := skipn (List.length l - 3) l.

Section Service.

(** [np.sqrt] *)
Variable np_sqrt : Q -> Q.
(** [x ** y] on floats with a fractional [y] and [x >= 0] *)
Variable py_pow : Q -> Q -> Q.
(** [np.polyfit(x, y, degree)], coefficients from the highest degree down *)
Variable np_polyfit : list Q -> list Q -> nat -> list Q.
(** [_get_forecast_period(i)]: the month 30*i days after [datetime.now()] *)
Variable _get_forecast_period : nat -> string.
(** year and month of [datetime.now() - timedelta(days = i * 30)] *)
Variable month_before : nat -> Z * Z.
(** the draw of [np.random.normal(0, scale)] in the iteration for [i] *)
Variable np_random_normal : nat -> Q -> Q.
(** The strategies other than the trend analysis, by the name of the method. *)
Variable OtherForecast : Type.
Variable other_strategy : string -> list HistoricalRevenue -> Params -> Res OtherForecast.


Definition np_std (l : list Q) : Q := np_sqrt (variance_pop l).

Definition z_score (confidence_level : Q) : Q :=
  if Qeq_bool confidence_level (90 # 100) then 1645 # 1000
  else if Qeq_bool confidence_level (95 # 100) then 196 # 100
  else if Qeq_bool confidence_level (99 # 100) then 2576 # 1000
  else 196 # 100.

Definition _calculate_forecast_confidence (forecast_data : list ForecastEntry)
    (historical_data : list HistoricalRevenue) (confidence_level : Q)
  : list ConfidenceInterval :=
  let revenues := map revenue historical_data in
  let volatility :=
    if (1 <? List.length revenues)%nat
    then np_std (map (fun p => fst p / snd p)
                     (combine (diff revenues) (removelast revenues)))
    else 1 # 10 in
  let z := z_score confidence_level in
  map (fun p =>
         let i := fst p in
         let uncertainty := volatility * np_sqrt (inject_Z (Z.of_nat (i + 1))) * z in
         let forecast_value := forecast (snd p) in
         {| ci_period := fe_period (snd p);
            ci_forecast := forecast_value;
            lower := max0 (forecast_value * (1 - uncertainty));
            upper := forecast_value * (1 + uncertainty);
            ci_confidence_level := confidence_level * 100 |})
      (combine (seq 0 (List.length forecast_data)) forecast_data).

Definition trend_forecast_data (revenues : list Q) (params : Params)
  : Res (list ForecastEntry) :=
  let forecast_months := get (forecast_months params) 12%nat in
  let trend_type := get (trend_type params) "linear" in
  let growth_rate := get (growth_rate params) (15 # 100) in
  let n := Qlen revenues in
  if String.eqb trend_type "linear" then
    match revenues with
    | [] => Raise TypeError
    | _ =>
        let coefficients := polyfit1 (arange (List.length revenues)) revenues in
        Ok (map (fun i =>
                   let forecast_value :=
                     fst coefficients * (n + inject_Z (Z.of_nat i)) + snd coefficients in
                   {| fe_month := i;
                      fe_period := _get_forecast_period i;
                      forecast := max0 forecast_value;
                      fe_method := "linear_trend" |})
                (seq 1 forecast_months))
    end
  else if String.eqb trend_type "exponential" then
    match revenues with
    | [] => Raise IndexError
    | _ =>
        (* a negative base makes [**] complex, and [max(0, .)] on the first
           confidence interval raises *)
        if Qlt_bool (1 + growth_rate) 0 && (0 <? forecast_months)%nat
        then Raise TypeError
        else
          let base_revenue :=
            if (3 <=? List.length revenues)%nat then mean (last3 revenues)
            else last revenues 0 in
          let monthly_growth := py_pow (1 + growth_rate) (1 # 12) - 1 in
          Ok (map (fun i =>
                     let forecast_value :=
                       base_revenue * (1 + monthly_growth) ^ Z.of_nat i in
                     {| fe_month := i;
                        fe_period := _get_forecast_period i;
                        forecast := forecast_value;
                        fe_method := "exponential" |})
                  (seq 1 forecast_months))
    end
  else if String.eqb trend_type "polynomial" then
    match revenues with
    | [] => Raise TypeError
    | _ =>
        let degree := get (polynomial_degree params) 2%nat in
        let coefficients := np_polyfit (arange (List.length revenues)) revenues degree in
        Ok (map (fun i =>
                   let forecast_value :=
                     poly1d coefficients (n + inject_Z (Z.of_nat i)) in
                   {| fe_month := i;
                      fe_period := _get_forecast_period i;
                      forecast := max0 forecast_value;
                      fe_method := "polynomial" |})
                (seq 1 forecast_months))
    end
  else Ok [].

Definition _trend_analysis_forecast (historical_data : list HistoricalRevenue)
    (params : Params) : Res TrendForecast :=
  let revenues := map revenue historical_data in
  forecast_data <- trend_forecast_data revenues params ;;
  let confidence_intervals :=
    _calculate_forecast_confidence forecast_data historical_data
      (get (confidence_level params) (95 # 100)) in
  Ok {| forecast_data := forecast_data;
        confidence_intervals := confidence_intervals;
        tf_method := get (trend_type params) "linear" ++ "_trend";
        total_forecast := Qsum (map forecast forecast_data) |}.




End Service.

End RevenuePlanning.

(** ** app/api/planning_routes.py *)

Module PlanningRoutes.
Import Stats.

Record HistoricalData : Type := {
  year : Z;
  month : Z;
  period : string;
  revenue : Q;
  type_ : string
}.

(** [class RevenueGrowthModel] *)
Record RevenueGrowthModel : Type := {
  method : string;
  base_growth_rate : Q;
  seasonality_factors : option (list Q);
  confidence_level : Q
}.

Record AccuracyMetrics : Type := {
  mape : Q;
  rmse : Q;
  r_squared : Q
}.

Record Interval : Type := {
  i_period : string;
  lower : Q;
  upper : Q;
  i_forecast : Q
}.

(** [int(n * 0.7)].  The float product rounds below the integer at
    n = 90, 170, 180, ...; it is [floor(7n/10)] for every n below 90. *)
Definition split_index (n : nat) : nat := Z.to_nat (7 * Z.of_nat n / 10).

Definition sq_errors (test_data predictions : list Q) : list Q :=
  map (fun ap => sq (fst ap - snd ap)) (combine test_data predictions).

(** The loop that accumulates [mape]. *)
Definition mape_sum (test_data predictions : list Q) : Q :=
  fold_left (fun acc ap =>
               if Qlt_bool 0 (fst ap)
               then acc + Qabs ((fst ap - snd ap) / fst ap) else acc)
            (combine test_data predictions) 0.

Definition trend_predictions (train_data : list Q) (n : nat) : list Q :=
  let avg_growth := mean (diff train_data) in
  let base := last train_data 0 in
  map (fun i => base + avg_growth * (inject_Z (Z.of_nat i) + 1)) (seq 0 n).

(** [month = (last_month + i - 1) % 12 + 1] and
    [year = last_year + (last_month + i - 1) // 12] *)
Definition month_at (last_month : Z) (i : nat) : Z :=
  ((last_month + Z.of_nat i - 1) mod 12 + 1)%Z.

Definition year_at (last_year last_month : Z) (i : nat) : Z :=
  (last_year + (last_month + Z.of_nat i - 1) / 12)%Z.

Definition forecast_row (last_year last_month : Z) (i : nat) (forecast_revenue : Q)
  : HistoricalData :=
  let m := month_at last_month i in
  let y := year_at last_year last_month i in
  {| year := y; month := m; period := format_period y m;
     revenue := max0 forecast_revenue; type_ := "forecast" |}.

(** [if growth_model.seasonality_factors and len(...) == 12: forecast_revenue *= ...] *)
Definition apply_seasonality (growth_model : RevenueGrowthModel) (m : Z) (x : Q) : Q :=
  match seasonality_factors growth_model with
  | Some (_ :: _ as factors) =>
      if (List.length factors =? 12)%nat
      then x * nth (Z.to_nat (m - 1)) factors 0 else x
  | _ => x
  end.

(** [[revenues[i] for i in range(month_idx, len(revenues), 12)]] *)
Fixpoint every_12th (l : list Q) (skip : nat) : list Q :=
  match l with
  | [] => []
  | x :: l' =>
      match skip with
      | O => x :: every_12th l' 11
      | S k => every_12th l' k
      end
  end.

Definition seasonal_indices (revenues : list Q) : list Q :=
  map (fun month_idx =>
         match every_12th revenues month_idx with
         | [] => 1
         | month_revenues =>
             let overall_avg := mean revenues in
             if Qlt_bool 0 overall_avg then mean month_revenues / overall_avg else 1
         end)
      (seq 0 12).

Section Routes.

(** [np.sqrt] and [statistics.stdev] *)
Variable np_sqrt : Q -> Q.
(** [x ** y] on floats with a fractional [y] and [x >= 0] *)
Variable py_pow : Q -> Q -> Q.

Definition exponential_forecast (historical_data : list HistoricalData) (months : nat)
    (growth_model : RevenueGrowthModel) : Res (list HistoricalData) :=
  let revenues := map revenue historical_data in
  let last_period := last historical_data
                       {| year := 0; month := 0; period := ""; revenue := 0; type_ := "" |} in
  let base_revenue := last revenues 0 in
  (* a negative base makes [**] complex, and [max(0, .)] raises *)
  if Qlt_bool (1 + base_growth_rate growth_model) 0 && (0 <? months)%nat
  then Raise TypeError
  else
    let monthly_growth_rate := py_pow (1 + base_growth_rate growth_model) (1 # 12) - 1 in
    Ok (map (fun i =>
               let forecast_revenue :=
                 base_revenue * (1 + monthly_growth_rate) ^ Z.of_nat i in
               forecast_row (year last_period) (month last_period) i
                 (apply_seasonality growth_model
                    (month_at (month last_period) i) forecast_revenue))
            (seq 1 months)).

Definition _generate_forecast (historical_data : list HistoricalData) (months : nat)
    (growth_model : RevenueGrowthModel) : Res (list HistoricalData) :=
  match historical_data with
  | [] => Ok []
  | _ =>
      let revenues := map revenue historical_data in
      let last_period := last historical_data
                           {| year := 0; month := 0; period := ""; revenue := 0; type_ := "" |} in
      let last_year := year last_period in
      let last_month := month last_period in
      if String.eqb (method growth_model) "linear" then
        let avg_growth :=
          if (1 <? List.length revenues)%nat then mean (diff revenues) else 0 in
        let base_revenue := last revenues 0 in
        Ok (map (fun i =>
                   let forecast_revenue :=
                     base_revenue + avg_growth * inject_Z (Z.of_nat i) in
                   forecast_row last_year last_month i
                     (apply_seasonality growth_model (month_at last_month i)
                        forecast_revenue))
                (seq 1 months))
      else if String.eqb (method growth_model) "exponential" then
        exponential_forecast historical_data months growth_model
      else if String.eqb (method growth_model) "seasonal" then
        if (12 <=? List.length revenues)%nat then
          let indices := seasonal_indices revenues in
          let trend_growth := base_growth_rate growth_model / 12 in
          let base_revenue := mean (RevenuePlanning.last3 revenues) in
          Ok (map (fun i =>
                     let trend_revenue :=
                       base_revenue * (1 + trend_growth * inject_Z (Z.of_nat i)) in
                     let seasonal_factor :=
                       nth (Z.to_nat ((month_at last_month i - 1) mod 12)) indices 0 in
                     forecast_row last_year last_month i (trend_revenue * seasonal_factor))
                  (seq 1 months))
        else
          exponential_forecast historical_data months
            {| method := "exponential";
               base_growth_rate := base_growth_rate growth_model;
               seasonality_factors := None;
               confidence_level := 95 # 100 |}
      else Ok []
  end.

Definition _calculate_accuracy_metrics (historical_data : list HistoricalData)
  : AccuracyMetrics :=
  let zero := {| mape := 0; rmse := 0; r_squared := 0 |} in
  let revenues := filter (fun r => Qlt_bool 0 r) (map revenue historical_data) in
  if (List.length revenues <? 6)%nat then zero
  else
    let split_idx := split_index (List.length revenues) in
    let train_data := firstn split_idx revenues in
    let test_data := skipn split_idx revenues in
    if (List.length train_data <? 2)%nat || (List.length test_data <? 2)%nat then zero
    else
      let predictions := trend_predictions train_data (List.length test_data) in
      let mape := mape_sum test_data predictions in
      let mape :=
        match test_data with
        | [] => 0
        | _ => mape / Qlen test_data * 100
        end in
      let rmse := np_sqrt (mean (sq_errors test_data predictions)) in
      let ss_res := Qsum (sq_errors test_data predictions) in
      let ss_tot := Qsum (map (fun actual => sq (actual - mean test_data)) test_data) in
      let r_squared := if Qlt_bool 0 ss_tot then 1 - ss_res / ss_tot else 0 in
      {| mape := py_round mape 2;
         rmse := py_round rmse 2;
         r_squared := py_round r_squared 4 |}.

Definition _calculate_confidence_intervals (forecast_data historical_data : list HistoricalData)
    (confidence_level : Q) : list Interval :=
  let historical_revenues :=
    filter (fun r => Qlt_bool 0 r) (map revenue historical_data) in
  if (List.length historical_revenues <? 3)%nat then
    map (fun d => {| i_period := period d;
                     lower := revenue d * (8 # 10);
                     upper := revenue d * (12 # 10);
                     i_forecast := revenue d |})
        forecast_data
  else
    let pct_changes :=
      map (fun p => snd p / fst p)
          (filter (fun p => Qlt_bool 0 (fst p))
                  (combine (removelast historical_revenues) (diff historical_revenues))) in
    let std_dev :=
      if (1 <? List.length pct_changes)%nat
      then np_sqrt (variance_sample pct_changes) else 1 # 10 in
    let z_score := RevenuePlanning.z_score confidence_level in
    map (fun p =>
           let uncertainty_factor := 1 + inject_Z (Z.of_nat (fst p)) * (5 # 100) in
           let interval_width :=
             std_dev * z_score * uncertainty_factor * revenue (snd p) in
           {| i_period := period (snd p);
              lower := max0 (revenue (snd p) - interval_width);
              upper := revenue (snd p) + interval_width;
              i_forecast := revenue (snd p) |})
        (combine (seq 0 (List.length forecast_data)) forecast_data).

End Routes.

(** The accuracy figures as the specification words them. *)
Definition spec_mape (test_data predictions : list Q) : Q :=
  let nonzero :=
    filter (fun ap => negb (Qeq_bool (fst ap) 0)) (combine test_data predictions) in
  Qsum (map (fun ap => Qabs ((fst ap - snd ap) / fst ap)) nonzero)
  / inject_Z (Z.of_nat (List.length nonzero)) * 100.


End PlanningRoutes.

(** ** Readings of the driver-based forecast used to state its properties *)

Module DriverBasedPlanningReadings.
Import DriverBasedPlanning.

(** [account_values.get(account_id, 0)] *)
Definition account_value_of (account : string) (account_values : dict Q) : Q :=
  match dict_get account account_values with
  | Some v => v
  | None => 0
  end.

(** What a linear relationship adds to [account] in a period. *)
Definition linear_contribution (driver_assumptions : dict (dict Q)) (period account : string)
    (rel : DriverRelationship) : Q :=
  if String.eqb (gl_account_id rel) account then
    match coefficient rel with
    | Some c => driver_value_for driver_assumptions (business_driver_id rel) period * c
    | None => 0
    end
  else 0.

Definition is_linear (rel : DriverRelationship) : bool :=
  String.eqb (relationship_type rel) "linear"
  && match coefficient rel with Some _ => true | None => false end.

End DriverBasedPlanningReadings.

(** ** Readings of the forecasts used to state their properties *)

Module ForecastReadings.

(** An interval whose bounds may be NaN: both NaN, or both numbers
    around the point. *)
Definition nan_interval_ok (low high : option Q) (point : Q) : Prop :=
  match low, high with
  | None, None => True
  | Some l, Some h => l <= point /\ point <= h
  | _, _ => False
  end.

(** The methods for which [_generate_forecast] has a branch. *)
Definition known_method (m : string) : bool :=
  String.eqb m "linear" || String.eqb m "exponential" || String.eqb m "seasonal".

End ForecastReadings.

(** ** app/services/planning/revenue_planning.py : pipeline and ensemble *)

Module RevenuePipeline.
Import Stats.

(** A row of the pipeline query; the date is [expected_close_date]. *)
Record Opportunity : Type := {
  probability : Q;
  amount : Q;
  close_year : Z;
  close_month : Z
}.

Record Bucket : Type := {
  pipeline_value : Q;
  weighted_value : Q;
  opportunity_count : nat
}.

Record PipelineEntry : Type := {
  pe_month : nat;
  pe_period : string;
  pe_forecast : Q;
  pe_pipeline_value : Q;
  pe_opportunity_count : nat;
  pe_method : string
}.

Record PipelineSummary : Type := {
  total_pipeline : Q;
  total_weighted : Q;
  total_opportunities : nat
}.

Record PipelineForecast : Type := {
  pf_forecast_data : list PipelineEntry;
  pf_method : string;
  pf_total_forecast : Q;
  pipeline_summary : PipelineSummary
}.

(** The body of [for opp in pipeline_data]. *)
Definition add_opportunity (forecast_by_month : dict Bucket) (opp : Opportunity)
  : dict Bucket :=
  let month_key := format_period (close_year opp) (close_month opp) in
  let forecast_by_month :=
    if dict_mem month_key forecast_by_month then forecast_by_month
    else dict_set month_key
           {| pipeline_value := 0; weighted_value := 0; opportunity_count := 0 |}
           forecast_by_month in
  let probability := probability opp / 100 in
  let amount := amount opp in
  match dict_get month_key forecast_by_month with
  | Some b =>
      dict_set month_key
        {| pipeline_value := pipeline_value b + amount;
           weighted_value := weighted_value b + amount * probability;
           opportunity_count := (opportunity_count b + 1)%nat |}
        forecast_by_month
  | None => forecast_by_month
  end.

Section Pipeline.
(** [_get_forecast_period(i)] *)
Variable _get_forecast_period : nat -> string.

Definition _pipeline_based_forecast (pipeline_data : list Opportunity)
    (forecast_months : nat) : PipelineForecast :=
  let forecast_by_month := fold_left add_opportunity pipeline_data [] in
  let entry (i : nat) :=
    let period := _get_forecast_period i in
    let forecast_value :=
      match dict_get period forecast_by_month with
      | Some b => weighted_value b
      | None =>
          match forecast_by_month with
          | [] => 0
          | _ => mean (map weighted_value (dict_values forecast_by_month))
          end
      end in
    {| pe_month := i;
       pe_period := period;
       pe_forecast := forecast_value;
       pe_pipeline_value :=
         match dict_get period forecast_by_month with
         | Some b => pipeline_value b
         | None => 0
         end;
       pe_opportunity_count :=
         match dict_get period forecast_by_month with
         | Some b => opportunity_count b
         | None => 0%nat
         end;
       pe_method := "pipeline" |} in
  let forecast_data := map entry (seq 1 forecast_months) in
  {| pf_forecast_data := forecast_data;
     pf_method := "pipeline_based";
     pf_total_forecast := Qsum (map pe_forecast forecast_data);
     pipeline_summary :=
       {| total_pipeline := Qsum (map pipeline_value (dict_values forecast_by_month));
          total_weighted := Qsum (map weighted_value (dict_values forecast_by_month));
          total_opportunities :=
            fold_left Nat.add (map opportunity_count (dict_values forecast_by_month)) 0%nat |} |}.

End Pipeline.

End RevenuePipeline.

Module RevenueEnsemble.
Import RevenuePlanning.

Record EnsembleEntry : Type := {
  en_month : nat;
  en_period : string;
  en_forecast : Q;
  en_method : string;
  components : dict Q
}.

Record EnsembleForecast : Type := {
  ef_forecast_data : list EnsembleEntry;
  ef_method : string;
  ef_total_forecast : Q;
  ensemble_weights : dict Q
}.

Definition methods : list string := ["trend"; "seasonal"; "regression"].

(** [forecasts[j][i]['forecast']] *)
Definition forecast_at (forecasts : list (list ForecastEntry)) (j i : nat) : Res Q :=
  fj <- of_option IndexError (nth_error forecasts j) ;;
  e <- of_option IndexError (nth_error fj i) ;;
  Ok (forecast e).

(** [sum(forecasts[j][i]['forecast'] * weights[j] for j in range(len(methods)))] *)
Definition weighted_forecast (forecasts : list (list ForecastEntry)) (weights : list Q)
    (i : nat) : Res Q :=
  fold_left
    (fun acc j =>
       a <- acc ;;
       f <- forecast_at forecasts j i ;;
       w <- of_option IndexError (nth_error weights j) ;;
       Ok (a + f * w))
    (seq 0 (List.length methods)) (Ok 0).

Fixpoint components_at (forecasts : list (list ForecastEntry)) (i : nat)
    (js : list nat) : Res (dict Q) :=
  match js with
  | [] => Ok []
  | j :: js' =>
      f <- forecast_at forecasts j i ;;
      rest <- components_at forecasts i js' ;;
      Ok ((nth j methods "", f) :: rest)
  end.

Section Ensemble.
Variable np_sqrt : Q -> Q.
Variable py_pow : Q -> Q -> Q.
Variable np_polyfit : list Q -> list Q -> nat -> list Q.
Variable _get_forecast_period : nat -> string.
(** [_seasonal_forecast] and [_regression_forecast]: their ['forecast_data']. *)
Variable _seasonal_forecast _regression_forecast :
  list HistoricalRevenue -> Params -> Res (list ForecastEntry).

(** The loop [for i in range(forecast_months)]. *)
Fixpoint combine_loop (forecasts : list (list ForecastEntry)) (weights : list Q)
    (months : list nat) : Res (list EnsembleEntry) :=
  match months with
  | [] => Ok []
  | i :: rest =>
      wf <- weighted_forecast forecasts weights i ;;
      cs <- components_at forecasts i (seq 0 (List.length methods)) ;;
      es <- combine_loop forecasts weights rest ;;
      Ok ({| en_month := (i + 1)%nat;
             en_period := _get_forecast_period (i + 1);
             en_forecast := wf;
             en_method := "ensemble";
             components := cs |} :: es)
  end.

(** [_ml_ensemble_forecast]; [weights_key] is the key ['ensemble_weights'] of
    the parameters, [None] when it is absent.  The placeholder
    ['model_performance'] is left out. *)
Definition _ml_ensemble_forecast (historical_data : list HistoricalRevenue)
    (params : Params) (weights_key : option (list Q)) : Res EnsembleForecast :=
  let forecast_months := get (forecast_months params) 12%nat in
  let weights := get weights_key [33 # 100; 34 # 100; 33 # 100] in
  t <- _trend_analysis_forecast np_sqrt py_pow np_polyfit _get_forecast_period
         historical_data params ;;
  s <- _seasonal_forecast historical_data params ;;
  r <- _regression_forecast historical_data params ;;
  let forecasts := [forecast_data t; s; r] in
  ensemble_forecast <- combine_loop forecasts weights (seq 0 forecast_months) ;;
  Ok {| ef_forecast_data := ensemble_forecast;
        ef_method := "ml_ensemble";
        ef_total_forecast := Qsum (map en_forecast ensemble_forecast);
        ensemble_weights := combine methods weights |}.

End Ensemble.

End RevenueEnsemble.

(** ** app/services/analytics/driver_based_planning.py : waterfall *)

Module Waterfall.

(** A row of the driver query of [create_waterfall_analysis];
    [actual_value] is a nullable column. *)
Record DriverValueRow : Type := {
  business_driver_id : string;
  fiscal_period_id : string;
  actual_value : option Q;
  driver_name : string;
  category : string
}.

Record Change : Type := {
  ch_name : string;
  ch_category : string;
  base_value : option Q;
  comp_value : option Q
}.

Record Component : Type := {
  driver : string;
  c_category : string;
  c_base_value : Q;
  new_value : Q;
  change : Q;
  impact : Q;
  impact_pct : Q
}.

Record WaterfallAnalysis : Type := {
  base_period : string;
  comparison_period : string;
  metric : string;
  waterfall_components : list Component;
  total_impact : Q
}.

(** The body of [for row in driver_data]. *)
Definition record_row (base_period_id : string) (driver_changes : dict Change)
    (row : DriverValueRow) : dict Change :=
  let driver_id := business_driver_id row in
  let driver_changes :=
    if dict_mem driver_id driver_changes then driver_changes
    else dict_set driver_id
           {| ch_name := driver_name row; ch_category := category row;
              base_value := Some 0; comp_value := Some 0 |}
           driver_changes in
  match dict_get driver_id driver_changes with
  | Some c =>
      if String.eqb (fiscal_period_id row) base_period_id
      then dict_set driver_id
             {| ch_name := ch_name c; ch_category := ch_category c;
                base_value := actual_value row; comp_value := comp_value c |}
             driver_changes
      else dict_set driver_id
             {| ch_name := ch_name c; ch_category := ch_category c;
                base_value := base_value c; comp_value := actual_value row |}
             driver_changes
  | None => driver_changes
  end.

(** [sort(key=lambda x: abs(x['impact']), reverse=True)]: stable, largest
    first. *)
Definition larger_impact (a b : Component) : bool :=
  Qle_bool (Qabs (impact b)) (Qabs (impact a)).

Section Analysis.
(** [_calculate_driver_impact(driver_id, change_value, metric)] *)
Variable _calculate_driver_impact : string -> Q -> string -> Q.

(** The loop [for driver_id, changes in driver_changes.items()];
    [None - x] raises TypeError. *)
Fixpoint components_loop (metric_name : string) (changes : dict Change)
  : Res (list Component) :=
  match changes with
  | [] => Ok []
  | (driver_id, c) :: rest =>
      comp <- of_option TypeError (comp_value c) ;;
      base <- of_option TypeError (base_value c) ;;
      let change_value := comp - base in
      if negb (Qeq_bool change_value 0) then
        let impact := _calculate_driver_impact driver_id change_value metric_name in
        more <- components_loop metric_name rest ;;
        Ok ({| driver := ch_name c;
               c_category := ch_category c;
               c_base_value := base;
               new_value := comp;
               change := change_value;
               impact := impact;
               impact_pct := if truthy impact then impact / Qabs impact * 100 else 0 |}
            :: more)
      else components_loop metric_name rest
  end.

Definition create_waterfall_analysis (driver_data : list DriverValueRow)
    (base_period_id comparison_period_id metric_name : string)
  : Res WaterfallAnalysis :=
  let driver_changes := fold_left (record_row base_period_id) driver_data [] in
  waterfall_components <- components_loop metric_name driver_changes ;;
  let waterfall_components := Forecasting.sort_by larger_impact waterfall_components in
  Ok {| base_period := base_period_id;
        comparison_period := comparison_period_id;
        metric := metric_name;
        waterfall_components := waterfall_components;
        total_impact := Qsum (map impact waterfall_components) |}.

End Analysis.

End Waterfall.

(** ** app/services/forecasting.py : create_driver_based_forecast *)

Module DriverForecast.
Import Forecasting.

(** A row of the relationship query; [coefficient] is a nullable column. *)
Record DriverRow : Type := {
  driver_id : string;
  driver_name : string;
  coefficient : option Q;
  relationship_type : string
}.

(** The latest row of [driver_values] for a driver: both columns nullable. *)
Record LatestValue : Type := {
  planned_value : option Q;
  actual_value : option Q
}.

Record Contribution : Type := {
  c_driver_name : string;
  c_driver_value : Q;
  contribution : Q
}.

Record DriverPoint : Type := {
  d_period : nat;
  d_forecasted_amount : Q;
  driver_contributions : list Contribution;
  d_confidence_score : Q
}.

Record DriverBasedForecast : Type := {
  d_model_type : string;
  drivers_used : list DriverRow;
  d_forecasts : list DriverPoint
}.

(** [planned_value or actual_value or 0] *)
Definition value_or (v : LatestValue) : Q :=
  match planned_value v with
  | Some p => if truthy p then p else
                match actual_value v with
                | Some a => if truthy a then a else 0
                | None => 0
                end
  | None =>
      match actual_value v with
      | Some a => if truthy a then a else 0
      | None => 0
      end
  end.

Section Service.
(** The driver query with [LIMIT 1]: [None] when the driver has no value. *)
Variable latest_value : string -> option LatestValue.

(** The loop [for driver in drivers] of one period. *)
Fixpoint drivers_loop (drivers : list DriverRow) (total_forecast : Q)
    (driver_contributions : list Contribution) : Res (Q * list Contribution) :=
  match drivers with
  | [] => Ok (total_forecast, driver_contributions)
  | driver :: rest =>
      match latest_value (driver_id driver) with
      | Some driver_result =>
          let driver_value := value_or driver_result in
          c <- (if String.eqb (relationship_type driver) "linear"
                then k <- of_option TypeError (coefficient driver) ;; Ok (driver_value * k)
                else Ok driver_value) ;;
          drivers_loop rest (total_forecast + c)
            (driver_contributions
             ++ [ {| c_driver_name := driver_name driver;
                     c_driver_value := driver_value;
                     contribution := c |} ])%list
      | None => drivers_loop rest total_forecast driver_contributions
      end
  end.

Fixpoint periods_loop (drivers : list DriverRow) (periods : list nat)
  : Res (list DriverPoint) :=
  match periods with
  | [] => Ok []
  | period :: rest =>
      tc <- drivers_loop drivers 0 [] ;;
      more <- periods_loop drivers rest ;;
      Ok ({| d_period := period;
             d_forecasted_amount := fst tc;
             driver_contributions := snd tc;
             d_confidence_score := 85 # 100 |} :: more)
  end.

Definition create_driver_based_forecast (drivers : list DriverRow)
    (forecast_periods : nat) : Res (Outcome DriverBasedForecast) :=
  match drivers with
  | [] => Ok (Error "No active driver relationships found")
  | _ =>
      forecasts <- periods_loop drivers (seq 1 forecast_periods) ;;
      Ok (Forecast {| d_model_type := "driver_based";
                      drivers_used := drivers;
                      d_forecasts := forecasts |})
  end.

End Service.

End DriverForecast.

(** ** app/services/planning/planning_base.py *)

Module PlanningBase.

(** A row of the query of [get_budget_comparison]. *)
Record ComparisonRow : Type := {
  account_id : string;
  account_number : string;
  account_name : string;
  actual_amount : Q;
  budget_amount : Q
}.

Record Detail : Type := {
  d_account_id : string;
  d_account_number : string;
  d_account_name : string;
  actual : Q;
  budget : Q;
  variance : Q;
  variance_pct : Q
}.

Record BudgetComparison : Type := {
  details : list Detail;
  total_actual : Q;
  total_budget : Q;
  total_variance : Q
}.

Definition get_budget_comparison (rows : list ComparisonRow) : BudgetComparison :=
  let comparison :=
    map (fun row =>
           let actual := actual_amount row in
           let budget := budget_amount row in
           let variance := actual - budget in
           {| d_account_id := account_id row;
              d_account_number := account_number row;
              d_account_name := account_name row;
              actual := actual;
              budget := budget;
              variance := variance;
              variance_pct :=
                if negb (Qeq_bool budget 0) then variance / budget * 100 else 0 |})
        rows in
  {| details := comparison;
     total_actual := Qsum (map actual comparison);
     total_budget := Qsum (map budget comparison);
     total_variance := Qsum (map variance comparison) |}.

(** [calculate_confidence_intervals]: the list of [(lower, upper)]. *)
Definition calculate_confidence_intervals (forecast_values : list Q)
    (historical_std confidence_level : Q) : list (Q * Q) :=
  let z_score := RevenuePlanning.z_score confidence_level in
  map (fun iv =>
         let uncertainty_factor := 1 + inject_Z (Z.of_nat (fst iv)) * (2 # 100) in
         let margin := historical_std * z_score * uncertainty_factor in
         (max0 (snd iv - margin), snd iv + margin))
      (combine (seq 0 (List.length forecast_values)) forecast_values).

End PlanningBase.

(** ** Instances of the runtime parameters used to run the embedding *)

Module Runtime.

Definition digit_of (c : ascii) : option Z :=
  let n := nat_of_ascii c in
  if (48 <=? n)%nat && (n <=? 57)%nat then Some (Z.of_nat (n - 48)) else None.

Fixpoint parse_digits (s : string) (acc : Z) : option Z :=
  match s with
  | EmptyString => Some acc
  | String c s' =>
      match digit_of c with
      | Some d => parse_digits s' (10 * acc + d)%Z
      | None => None
      end
  end.

Definition parse_unsigned (s : string) : option Q :=
  match str_split "." s with
  | [i] => if String.eqb i "" then None else option_map inject_Z (parse_digits i 0)
  | [i; f] =>
      if String.eqb i "" && String.eqb f "" then None
      else match parse_digits i 0, parse_digits f 0 with
           | Some a, Some b =>
               Some (inject_Z a + inject_Z b / inject_Z (10 ^ Z.of_nat (String.length f)))
           | _, _ => None
           end
  | _ => None
  end.

(** [float(s)] on the plain decimal literals: an optional sign, digits and
    an optional fraction.  Everything else is rejected here. *)
Definition decimal_literal (s : string) : option Q :=
  match s with
  | String "-" s' => option_map Qopp (parse_unsigned s')
  | String "+" s' => parse_unsigned s'
  | _ => parse_unsigned s
  end.

(** Stand-ins for [str] and [eval] where a run does not reach them. *)
Definition no_str (x : Q) : string := "".
Definition no_eval (src : string) : option Q := None.

(** [sklearn.metrics.r2_score] *)
Definition r2_score (y_true y_pred : list Q) : Q :=
  let ss_res := Qsum (map (fun p => Stats.sq (fst p - snd p)) (combine y_true y_pred)) in
  let ss_tot := Stats.ss_dev y_true in
  if Qeq_bool ss_tot 0 then (if Qeq_bool ss_res 0 then 1 else 0)
  else 1 - ss_res / ss_tot.

(** [sklearn.metrics.mean_absolute_percentage_error], with the machine
    epsilon [2^-52] under the quotient. *)
Definition mean_absolute_percentage_error (y_true y_pred : list Q) : Q :=
  let eps := 1 # (2 ^ 52) in
  Stats.mean
    (map (fun p => Qabs (snd p - fst p)
                   / (if Qlt_bool (Qabs (fst p)) eps then eps else Qabs (fst p)))
         (combine y_true y_pred)).

(** A first-order stand-in for the float power [x ** y]. *)
Definition pow1 (x y : Q) : Q := 1 + (x - 1) * y.

(** [np.polyfit] for the line only; other degrees answer the zero polynomial. *)
Definition polyfit_line (xs ys : list Q) (degree : nat) : list Q :=
  match degree with
  | 1%nat => [fst (Stats.polyfit1 xs ys); snd (Stats.polyfit1 xs ys)]
  | _ => []
  end.


Definition forecast_period (i : nat) : string :=
  format_period (2025 + Z.of_nat ((i - 1) / 12))%Z (Z.of_nat ((i - 1) mod 12) + 1)%Z.



End Runtime.

(** ** Concrete inputs on which the embedding is run *)

Module Fixtures.
Import DriverBasedPlanning.

Definition rel (rid driver account kind : string) (c : option Q) (f : option string)
  : DriverRelationship :=
  {| id := rid; business_driver_id := driver; gl_account_id := account;
     cost_center_id := None; relationship_type := kind;
     coefficient := c; formula := f; is_active := true |}.

(** One linear relationship: account [rev] receives twice the driver [d1]. *)
Definition linear_rels : list DriverRelationship :=
  [rel "r1" "d1" "rev" "linear" (Some 2) None].

Definition is_rev (account : string) : bool := String.eqb account "rev".
Definition is_exp (account : string) : bool := String.eqb account "exp".

(** [_get_driver_values]: driver [d1] is 100 in period [p1]; its inner dict
    lives at address 0. *)
Definition base_values : dict nat := [("d1", 0%nat)].
Definition base_heap : Heap := [[("p1", 100)]].

(** A step function that maps a zero driver value to 1000. *)
Definition step_rels : list DriverRelationship :=
  [rel "r2" "d2" "exp" "step_function" None (Some "0-100:1000")].



(** Six periods of 2024, latest first as [get_historical_data] orders
    them, with the amounts 50, 40, 30, 20, 10, 0. *)
Definition declining_rows : list Forecasting.HistoricalRow :=
  map (fun pa => {| Forecasting.fiscal_year := 2024;
                    Forecasting.period_number := fst pa;
                    Forecasting.actual_amount := snd pa |})
      [(6%Z, 50); (5%Z, 40); (4%Z, 30); (3%Z, 20); (2%Z, 10); (1%Z, 0)].

(** The twelve periods of 2024, 100 in each. *)
Definition one_year_rows : list Forecasting.HistoricalRow :=
  map (fun k => {| Forecasting.fiscal_year := 2024;
                   Forecasting.period_number := Z.of_nat k;
                   Forecasting.actual_amount := 100 |})
      (rev (seq 1 12)).


Definition default_params : RevenuePlanning.Params :=
  {| RevenuePlanning.method := None;
     RevenuePlanning.forecast_months := None;
     RevenuePlanning.trend_type := None;
     RevenuePlanning.growth_rate := None;
     RevenuePlanning.polynomial_degree := None;
     RevenuePlanning.confidence_level := None |}.

End Fixtures.

(** * Properties *)

(** ** Python runtime *)

Module PyFacts.

Lemma Qlt_bool_iff (x y : Q) : Qlt_bool x y = true <-> x < y.
Proof.
  unfold Qlt_bool. rewrite negb_true_iff.
  split; intros H.
  - apply Qnot_le_lt. intros Hle. apply Qle_bool_iff in Hle. congruence.
  - destruct (Qle_bool y x) eqn:E; [|reflexivity].
    apply Qle_bool_iff in E. lra.
Qed.

Lemma Qlt_bool_false_iff (x y : Q) : Qlt_bool x y = false <-> y <= x.
Proof.
  unfold Qlt_bool. rewrite negb_false_iff. apply Qle_bool_iff.
Qed.

Lemma max0_nonneg (x : Q) : 0 <= max0 x.
Proof.
  unfold max0. destruct (Qlt_bool 0 x) eqn:E; [|lra].
  apply Qlt_bool_iff in E. lra.
Qed.

Lemma max0_of_nonneg (x : Q) : 0 <= x -> max0 x == x.
Proof.
  intros H. unfold max0. destruct (Qlt_bool 0 x) eqn:E; [reflexivity|].
  apply Qlt_bool_false_iff in E. lra.
Qed.

Lemma max0_le (x y : Q) : 0 <= y -> x <= y -> max0 x <= y.
Proof.
  intros Hy Hxy. unfold max0. destruct (Qlt_bool 0 x); assumption.
Qed.

Lemma Qlt_bool_comp (x x' y y' : Q) : x == x' -> y == y' -> Qlt_bool x y = Qlt_bool x' y'.
Proof.
  intros Hx Hy. destruct (Qlt_bool x' y') eqn:E.
  - apply Qlt_bool_iff. apply Qlt_bool_iff in E. lra.
  - apply Qlt_bool_false_iff. apply Qlt_bool_false_iff in E. lra.
Qed.

(** Rounding sees the number, not the fraction that writes it. *)
Lemma round_half_even_comp (x y : Q) : x == y -> round_half_even x = round_half_even y.
Proof.
  intros H. unfold round_half_even.
  assert (Hf : Qfloor x = Qfloor y) by now rewrite H.
  rewrite Hf.
  rewrite (Qlt_bool_comp (x - inject_Z (Qfloor y)) (y - inject_Z (Qfloor y)) (1 # 2) (1 # 2))
    by (try reflexivity; lra).
  rewrite (Qlt_bool_comp (1 # 2) (1 # 2) (x - inject_Z (Qfloor y)) (y - inject_Z (Qfloor y)))
    by (try reflexivity; lra).
  reflexivity.
Qed.

Lemma py_round_comp (x y : Q) (n : nat) : x == y -> py_round x n = py_round y n.
Proof.
  intros H. unfold py_round.
  rewrite (round_half_even_comp (x * inject_Z (10 ^ Z.of_nat n)) (y * inject_Z (10 ^ Z.of_nat n)))
    by now rewrite H.
  reflexivity.
Qed.



End PyFacts.

(** ** Driver relationships *)

Module DriverBasedPlanningFacts.
Import DriverBasedPlanning Runtime.

Section StepFunction.
Variable py_float : string -> option Q.

Lemma step_loop_nil (x : Q) : step_loop py_float x [] = Ok 0.
Proof. reflexivity. Qed.

(** A step without ['-'] in its range part is passed over. *)
Lemma step_loop_no_dash (x : Q) (step range_part value_part : string) (rest : list string) :
  str_split ":" step = [range_part; value_part] ->
  str_contains "-" range_part = false ->
  step_loop py_float x (step :: rest) = step_loop py_float x rest.
Proof.
  intros Hsplit Hdash. cbn [step_loop]. rewrite Hsplit, Hdash. reflexivity.
Qed.

(** A bounded step [lo-hi:v] answers [v] on the closed interval. *)
Lemma step_loop_bounded_hit (x lo hi v : Q)
    (step range_part value_part min_val max_val : string) (rest : list string) :
  str_split ":" step = [range_part; value_part] ->
  str_contains "-" range_part = true ->
  str_split "-" range_part = [min_val; max_val] ->
  max_val <> "+" ->
  py_float min_val = Some lo -> py_float max_val = Some hi ->
  py_float value_part = Some v ->
  lo <= x -> x <= hi ->
  step_loop py_float x (step :: rest) = Ok v.
Proof.
  intros Hs Hd Hr Hplus Hlo Hhi Hv Hle1 Hle2.
  cbn [step_loop]. rewrite Hs, Hd, Hr.
  apply String.eqb_neq in Hplus. rewrite Hplus, Hlo. cbn [of_option bind].
  apply Qle_bool_iff in Hle1. rewrite Hle1, Hhi. cbn [of_option bind].
  apply Qle_bool_iff in Hle2. rewrite Hle2, Hv. reflexivity.
Qed.

(** A bounded step that does not contain [x] hands over to the next step. *)
Lemma step_loop_bounded_miss (x lo hi : Q)
    (step range_part value_part min_val max_val : string) (rest : list string) :
  str_split ":" step = [range_part; value_part] ->
  str_contains "-" range_part = true ->
  str_split "-" range_part = [min_val; max_val] ->
  max_val <> "+" ->
  py_float min_val = Some lo -> py_float max_val = Some hi ->
  x < lo \/ hi < x ->
  step_loop py_float x (step :: rest) = step_loop py_float x rest.
Proof.
  intros Hs Hd Hr Hplus Hlo Hhi Hout.
  cbn [step_loop]. rewrite Hs, Hd, Hr.
  apply String.eqb_neq in Hplus. rewrite Hplus, Hlo. cbn [of_option bind].
  destruct (Qle_bool lo x) eqn:E1; [|reflexivity].
  rewrite Hhi. cbn [of_option bind].
  destruct (Qle_bool x hi) eqn:E2; [|reflexivity].
  apply Qle_bool_iff in E1, E2. destruct Hout; lra.
Qed.

(** An open step written [lo-+:v] answers [v] from [lo] upwards. *)
Lemma step_loop_open_hit (x lo v : Q)
    (step range_part value_part min_val : string) (rest : list string) :
  str_split ":" step = [range_part; value_part] ->
  str_contains "-" range_part = true ->
  str_split "-" range_part = [min_val; "+"] ->
  py_float min_val = Some lo ->
  py_float value_part = Some v ->
  lo <= x ->
  step_loop py_float x (step :: rest) = Ok v.
Proof.
  intros Hs Hd Hr Hlo Hv Hle.
  cbn [step_loop]. rewrite Hs, Hd, Hr. cbn. rewrite Hlo. cbn [of_option bind].
  apply Qle_bool_iff in Hle. rewrite Hle, Hv. reflexivity.
Qed.

End StepFunction.

(** The breakpoints [(0,100,1000),(100,200,2000),(200,+oo,3000)] with the
    open range written as the parser reads it. *)
Example step_function_dash_plus_notation :
  let f := Some "0-100:1000;100-200:2000;200-+:3000" in
  _calculate_step_function decimal_literal 150 f = Ok 2000 /\
  _calculate_step_function decimal_literal 250 f = Ok 3000 /\
  _calculate_step_function decimal_literal (-5) f = Ok 0.
Proof. repeat split; vm_compute; reflexivity. Qed.

(** On the format the source documents, no value above 200 reaches the
    open range: its range part ["201+"] holds no ['-']. *)
Lemma documented_open_range_never_matches (x : Q) :
  200 < x ->
  _calculate_step_function decimal_literal x (Some "0-100:1000;101-200:2000;201+:3000")
  = Ok 0.
Proof.
  intros Hx. unfold _calculate_step_function.
  change (str_split ";" "0-100:1000;101-200:2000;201+:3000")
    with ["0-100:1000"; "101-200:2000"; "201+:3000"].
  rewrite (step_loop_bounded_miss decimal_literal x 0 100 "0-100:1000" "0-100" "1000" "0" "100")
    by first [reflexivity | discriminate | right; lra].
  rewrite (step_loop_bounded_miss decimal_literal x 101 200 "101-200:2000" "101-200" "2000" "101" "200")
    by first [reflexivity | discriminate | right; lra].
  rewrite (step_loop_no_dash decimal_literal x "201+:3000" "201+" "3000") by reflexivity.
  reflexivity.
Qed.

(** C9.  The step function is a first-match lookup over the steps of the
    formula, and a value outside every range yields 0; but on the format the
    source documents for it, ["0-100:1000;101-200:2000;201+:3000"], the open
    final range ["201+"] is passed over: 250 yields 0, not 3000, while 150
    yields 2000 and -5 yields 0. *)
Theorem step_function_documented_format :
  let f := Some "0-100:1000;101-200:2000;201+:3000" in
  _calculate_step_function decimal_literal 150 f = Ok 2000 /\
  _calculate_step_function decimal_literal (-5) f = Ok 0 /\
  _calculate_step_function decimal_literal 250 f = Ok 0.
Proof. repeat split; vm_compute; reflexivity. Qed.

Section PeriodForecast.
Variable py_float : string -> option Q.
Variable py_str : Q -> string.
Variable py_eval : string -> option Q.
Variables is_revenue is_expense : string -> bool.

Lemma missing_or_zero_not_truthy (a : dict (dict Q)) (p : string) (r : DriverRelationship) :
  driver_missing_or_zero a p r = negb (truthy (driver_value_for a (business_driver_id r) p)).
Proof.
  unfold driver_missing_or_zero, driver_value_for, truthy.
  destruct (dict_get (business_driver_id r) a) as [values|]; [|reflexivity].
  destruct (dict_get p values) as [v|]; [|reflexivity].
  now rewrite negb_involutive.
Qed.

(** The guard [if driver_value:] leaves [account_values] as it was, whatever
    the kind of the relationship. *)
Lemma relationship_step_skip (a : dict (dict Q)) (p : string) (av : dict Q)
    (r : DriverRelationship) :
  driver_missing_or_zero a p r = true ->
  relationship_step py_float py_str py_eval a p av r = Ok av.
Proof.
  intros H. rewrite missing_or_zero_not_truthy in H.
  apply negb_true_iff in H. unfold relationship_step. now rewrite H.
Qed.

Lemma relationships_loop_filter (a : dict (dict Q)) (p : string)
    (rels : list DriverRelationship) :
  forall av,
    relationships_loop py_float py_str py_eval a p av rels
    = relationships_loop py_float py_str py_eval a p av
        (filter (fun r => negb (driver_missing_or_zero a p r)) rels).
Proof.
  induction rels as [|r rels IH]; intros av; [reflexivity|].
  cbn [filter]. destruct (driver_missing_or_zero a p r) eqn:E; cbn [negb].
  - cbn [relationships_loop]. rewrite (relationship_step_skip a p av r E).
    cbn [bind]. apply IH.
  - cbn [relationships_loop].
    destruct (relationship_step py_float py_str py_eval a p av r); cbn [bind];
      [apply IH | reflexivity].
Qed.

(** C10.  The forecast of a period is the forecast over the relationships
    whose driver has a nonzero value for the period: a relationship whose
    driver value is missing or 0 is never evaluated and adds nothing to its
    account, whatever its kind. *)
Theorem period_forecast_skips_missing_or_zero (rels : list DriverRelationship)
    (p : string) (a : dict (dict Q)) :
  _calculate_period_forecast py_float py_str py_eval is_revenue is_expense rels p a
  = _calculate_period_forecast py_float py_str py_eval is_revenue is_expense
      (filter (fun r => negb (driver_missing_or_zero a p r)) rels) p a.
Proof.
  unfold _calculate_period_forecast.
  now rewrite <- relationships_loop_filter.
Qed.

End PeriodForecast.

(** A step function that maps 0 to 1000 adds nothing when its driver is 0,
    and 1000 when its driver is 50. *)
Example zero_driver_step_function_adds_nothing :
  option_map account_values
    (match _calculate_period_forecast decimal_literal no_str no_eval
             Fixtures.is_rev Fixtures.is_exp Fixtures.step_rels "p1" [("d2", [("p1", 0)])]
     with Ok r => Some r | Raise _ => None end) = Some [] /\
  _calculate_step_function decimal_literal 0 (Some "0-100:1000") = Ok 1000 /\
  option_map account_values
    (match _calculate_period_forecast decimal_literal no_str no_eval
             Fixtures.is_rev Fixtures.is_exp Fixtures.step_rels "p1" [("d2", [("p1", 50)])]
     with Ok r => Some r | Raise _ => None end) = Some [("exp", 0 + 1000)].
Proof. repeat split; vm_compute; reflexivity. Qed.

(** *** The baseline under [adjust_driver] *)

Section SharedBaseline.

Lemma heap_get_set (h : Heap) (l : nat) (d : dict Q) :
  (l < List.length h)%nat -> heap_get (heap_set h l d) l = d.
Proof.
  unfold heap_get. revert l. induction h as [|x h IH]; intros l Hl; [cbn in Hl; lia|].
  destruct l as [|l]; [reflexivity|]. cbn in *. apply IH. lia.
Qed.

Lemma heap_set_set (h : Heap) (l : nat) (d d' : dict Q) :
  heap_set (heap_set h l d) l d' = heap_set h l d'.
Proof.
  revert l. induction h as [|x h IH]; intros l; [reflexivity|].
  destruct l as [|l]; [reflexivity|]. cbn. now rewrite IH.
Qed.

Lemma heap_set_length (h : Heap) (l : nat) (d : dict Q) :
  List.length (heap_set h l d) = List.length h.
Proof.
  revert l. induction h as [|x h IH]; intros l; [reflexivity|].
  destruct l as [|l]; [reflexivity|]. cbn. now rewrite IH.
Qed.

Lemma dict_get_app_skip (k : string) (d1 d2 : dict Q) :
  ~ In k (dict_keys d1) -> dict_get k (d1 ++ d2)%list = dict_get k d2.
Proof.
  induction d1 as [|[k' x] d1 IH]; intros Hk; [reflexivity|].
  cbn in *. destruct (String.eqb k k') eqn:E.
  - apply String.eqb_eq in E. subst. tauto.
  - apply IH. tauto.
Qed.

Lemma dict_set_app_skip (k : string) (x : Q) (d1 d2 : dict Q) :
  ~ In k (dict_keys d1) -> dict_set k x (d1 ++ d2)%list = (d1 ++ dict_set k x d2)%list.
Proof.
  induction d1 as [|[k' y] d1 IH]; intros Hk; [reflexivity|].
  cbn in *. destruct (String.eqb k k') eqn:E.
  - apply String.eqb_eq in E. subst. tauto.
  - f_equal. apply IH. tauto.
Qed.

Lemma scaled_keys (v : Q) (d : dict Q) : dict_keys (scaled v d) = dict_keys d.
Proof. unfold dict_keys, scaled. rewrite map_map. reflexivity. Qed.

(** The loop over the periods, started after the entries [d1]. *)
Lemma adjust_loop (v : Q) (h : Heap) (l : nat) (d2 : dict Q) :
  (l < List.length h)%nat ->
  forall d1,
    NoDup (dict_keys (d1 ++ d2)%list) ->
    fold_left
      (fun h period =>
         match dict_get period (heap_get h l) with
         | Some original =>
             heap_set h l (dict_set period (original * (1 + v / 100)) (heap_get h l))
         | None => h
         end)
      (dict_keys d2) (heap_set h l (scaled v d1 ++ d2)%list)
    = heap_set h l (scaled v (d1 ++ d2))%list.
Proof.
  intros Hl. induction d2 as [|[k x] d2 IH]; intros d1 Hnd.
  - cbn. now rewrite !app_nil_r.
  - cbn [dict_keys map fst fold_left].
    assert (Hk : ~ In k (dict_keys (scaled v d1))).
    { rewrite scaled_keys. unfold dict_keys in *. rewrite map_app in Hnd.
      apply NoDup_remove_2 in Hnd. intros Hin. apply Hnd. apply in_or_app. now left. }
    rewrite heap_get_set by exact Hl.
    rewrite (dict_get_app_skip k _ _ Hk). cbn [dict_get]. rewrite String.eqb_refl.
    rewrite (dict_set_app_skip k _ _ _ Hk). cbn [dict_set]. rewrite String.eqb_refl.
    rewrite heap_set_set.
    specialize (IH (d1 ++ [(k, x)])%list).
    rewrite <- app_assoc in IH. cbn [app] in IH. specialize (IH Hnd).
    unfold scaled in IH at 1. rewrite map_app in IH. cbn [map fst snd] in IH.
    rewrite <- app_assoc in IH. cbn [app] in IH. exact IH.
Qed.

(** [adjust_driver] rewrites the inner dict of the baseline in place. *)
Lemma adjust_driver_writes_baseline (h : Heap) (base_values : dict nat)
    (driver : string) (l : nat) (v : Q) :
  dict_get driver base_values = Some l ->
  (l < List.length h)%nat ->
  NoDup (dict_keys (heap_get h l)) ->
  adjust_driver h base_values driver v = heap_set h l (scaled v (heap_get h l)).
Proof.
  intros Hd Hl Hnd. unfold adjust_driver. rewrite Hd.
  pose proof (adjust_loop v h l (heap_get h l) Hl [] Hnd) as H.
  cbn [scaled map app] in H.
  assert (Hid : heap_set h l (heap_get h l) = h).
  { clear. unfold heap_get. revert l. induction h as [|x h IH]; intros l; [reflexivity|].
    destruct l as [|l]; [reflexivity|]. cbn. now rewrite IH. }
  rewrite Hid in H. exact H.
Qed.

(** Two grid points in a row: the second starts from what the first left. *)
Lemma adjust_driver_compounds (h : Heap) (base_values : dict nat)
    (driver : string) (l : nat) (v1 v2 : Q) :
  dict_get driver base_values = Some l ->
  (l < List.length h)%nat ->
  NoDup (dict_keys (heap_get h l)) ->
  heap_get (adjust_driver (adjust_driver h base_values driver v1) base_values driver v2) l
  = scaled v2 (scaled v1 (heap_get h l)).
Proof.
  intros Hd Hl Hnd.
  rewrite (adjust_driver_writes_baseline h base_values driver l v1 Hd Hl Hnd).
  rewrite (adjust_driver_writes_baseline _ base_values driver l v2 Hd).
  - rewrite heap_get_set by (rewrite heap_set_length; exact Hl).
    now rewrite heap_get_set by exact Hl.
  - now rewrite heap_set_length.
  - rewrite heap_get_set by exact Hl. now rewrite scaled_keys.
Qed.

End SharedBaseline.

(** ** Sensitivity analysis *)


(** ** Formula relationships *)



End DriverBasedPlanningFacts.

(** ** Variance *)

Module VarianceFacts.
Import Models SimpleAnalyticsRoutes PyFacts.

(** The expense rule of the source, taken alone, is the rule of the claim. *)
Lemma expense_status_rule (actual planned : Q) :
  (expense_status (actual - planned) = "favorable" <-> actual < planned) /\
  (expense_status (actual - planned) = "unfavorable" <-> planned < actual) /\
  (expense_status (actual - planned) = "neutral" <-> actual == planned).
Proof.
  unfold expense_status.
  destruct (Qlt_bool (actual - planned) 0) eqn:E1;
    [apply Qlt_bool_iff in E1 | apply Qlt_bool_false_iff in E1];
    (destruct (Qlt_bool 0 (actual - planned)) eqn:E2;
      [apply Qlt_bool_iff in E2 | apply Qlt_bool_false_iff in E2]);
    repeat split; intros H; try discriminate; try reflexivity; lra.
Qed.

(** So is the revenue rule. *)
Lemma revenue_status_rule (actual planned : Q) :
  (revenue_status (actual - planned) = "favorable" <-> planned < actual) /\
  (revenue_status (actual - planned) = "unfavorable" <-> actual < planned) /\
  (revenue_status (actual - planned) = "neutral" <-> actual == planned).
Proof.
  unfold revenue_status.
  destruct (Qlt_bool 0 (actual - planned)) eqn:E1;
    [apply Qlt_bool_iff in E1 | apply Qlt_bool_false_iff in E1];
    (destruct (Qlt_bool (actual - planned) 0) eqn:E2;
      [apply Qlt_bool_iff in E2 | apply Qlt_bool_false_iff in E2]);
    repeat split; intros H; try discriminate; try reflexivity; lra.
Qed.

(** An enum member never equals the string: every row takes the revenue
    rule, expense accounts included. *)
Lemma every_row_takes_revenue_rule (row : VarianceRow) :
  option_map status (variance_entry row)
  = if negb (Qeq_bool (budget row) 0) || negb (Qeq_bool (actual row) 0)
    then Some (revenue_status (actual row - budget row)) else None.
Proof.
  unfold variance_entry. cbn [py_eq].
  destruct (negb (Qeq_bool (budget row) 0) || negb (Qeq_bool (actual row) 0));
    reflexivity.
Qed.

(** C2.  An expense account with actual 80 against a budget of 100 is
    reported "unfavorable": [row.account_type] is [AccountType.EXPENSE],
    which is not [==] to the string "expense", so the revenue rule is
    applied.  The expense rule of the same function would have answered
    "favorable". *)
Theorem expense_under_budget_reported_unfavorable :
  let row := {| account_code := "6000"; account_name := "Rent";
                account_type := EXPENSE; budget := 100; actual := 80 |} in
  option_map status (variance_entry row) = Some "unfavorable" /\
  option_map (fun v => Qred (v_variance v)) (variance_entry row) = Some (-20) /\
  expense_status (80 - 100) = "favorable".
Proof. repeat split; vm_compute; reflexivity. Qed.

(** C3, as stated, fails at both call sites.  With a budget of 0 and an
    actual of 50 the route reports 0, not null; with a budget of -100 and an
    actual of 80 the query reports 180 where the stated formula gives -180. *)
Lemma variance_pct_differs_from_stated :
  let row := {| account_code := "4000"; account_name := "Sales";
                account_type := REVENUE; budget := 0; actual := 50 |} in
  spec_variance_pct 50 0 = None /\
  option_map (fun v => Qred (variance_percentage v)) (variance_entry row) = Some 0 /\
  option_map Qred (spec_variance_pct 80 (-100)) = Some (-180) /\
  option_map Qred (VarianceAnalysis.variance_percentage (Some 80) (Some (-100)))
  = Some 180.
Proof. repeat split; vm_compute; reflexivity. Qed.

(** C3, amended.  In [get_variance_analysis] the percentage is
    [(actual - planned) / planned * 100] when [planned <> 0] and 0 when
    [planned = 0], reported rounded to two decimals; in
    [calculate_variance_for_period] it is NULL exactly when [planned = 0]
    and [(actual - planned) / |planned| * 100] otherwise, which is the
    stated value with its sign flipped for a negative [planned]. *)
Theorem variance_pct_by_call_site (row : VarianceRow) (actual planned : Q) :
  variance_pct actual planned
  = match spec_variance_pct actual planned with Some p => p | None => 0 end /\
  option_map variance_percentage (variance_entry row)
  = (if negb (Qeq_bool (budget row) 0) || negb (Qeq_bool (SimpleAnalyticsRoutes.actual row) 0)
     then Some (py_round (variance_pct (SimpleAnalyticsRoutes.actual row) (budget row)) 2)
     else None) /\
  match VarianceAnalysis.variance_percentage (Some actual) (Some planned),
        spec_variance_pct actual planned with
  | None, None => planned == 0
  | Some x, Some p =>
      ~ planned == 0 /\
      x == (actual - planned) / Qabs planned * 100 /\
      x == (if Qlt_bool planned 0 then - p else p)
  | _, _ => False
  end.
Proof.
  split; [|split].
  - unfold variance_pct, spec_variance_pct.
    destruct (Qeq_bool planned 0); reflexivity.
  - unfold variance_entry.
    destruct (negb (Qeq_bool (budget row) 0)
              || negb (Qeq_bool (SimpleAnalyticsRoutes.actual row) 0)); reflexivity.
  - unfold VarianceAnalysis.variance_percentage, spec_variance_pct.
    cbn [VarianceAnalysis.coalesce0].
    destruct (Qeq_bool planned 0) eqn:E.
    + now apply Qeq_bool_iff.
    + assert (Hne : ~ planned == 0).
      { intros H. apply Qeq_bool_iff in H. congruence. }
      split; [exact Hne|]. split; [reflexivity|].
      destruct (Qlt_bool planned 0) eqn:L.
      * apply Qlt_bool_iff in L. rewrite (Qabs_neg planned) by lra. field. exact Hne.
      * apply Qlt_bool_false_iff in L. rewrite (Qabs_pos planned) by lra. reflexivity.
Qed.

End VarianceFacts.

(** ** Accuracy evaluation *)

Module AccuracyFacts.
Import Stats PlanningRoutes PyFacts.












(** On a constant series every figure is 0. *)
Example accuracy_constant_series :
  let row := {| year := 2024; month := 1; period := "2024-01";
                revenue := 100; type_ := "actual" |} in
  _calculate_accuracy_metrics sqrt6 (repeat row 10)
  = {| mape := 0 / 100; rmse := 0 / 100; r_squared := 0 / 10000 |}.
Proof. vm_compute. reflexivity. Qed.


(** [get_forecast_accuracy] averages the same terms: over the rows whose
    actual is not zero, and NaN when there is none. *)
Lemma forecast_accuracy_mape (np_sqrt : Q -> Q) (data : list Forecasting.AccuracyRow) :
  (2 <= List.length data)%nat ->
  match Forecasting.get_forecast_accuracy np_sqrt data with
  | Forecasting.Forecast a =>
      match Forecasting.a_mape a with
      | Some m =>
          m = spec_mape (map Forecasting.a_actual_amount data)
                        (map Forecasting.a_forecasted_amount data)
      | None => Forall (fun r => Forecasting.a_actual_amount r == 0) data
      end
  | Forecasting.Error _ => False
  end.
Proof.
  intros Hlen. unfold Forecasting.get_forecast_accuracy.
  apply Nat.ltb_ge in Hlen. rewrite Hlen. cbn [Forecasting.a_mape].
  assert (Hc : combine (map Forecasting.a_actual_amount data)
                       (map Forecasting.a_forecasted_amount data)
               = map (fun row => (Forecasting.a_actual_amount row,
                                  Forecasting.a_forecasted_amount row)) data).
  { clear. induction data as [|r data IH]; [reflexivity|]. cbn. now rewrite IH. }
  unfold spec_mape. rewrite Hc.
  set (pairs := map _ data).
  destruct (filter _ pairs) as [|p ps] eqn:E.
  - cbn [map]. apply Forall_forall. intros r Hr.
    assert (Hin : In (Forecasting.a_actual_amount r, Forecasting.a_forecasted_amount r) pairs).
    { unfold pairs. apply in_map_iff. exists r. now split. }
    destruct (Qeq_bool (Forecasting.a_actual_amount r) 0) eqn:Q0;
      [now apply Qeq_bool_iff|].
    assert (Hf : In (Forecasting.a_actual_amount r, Forecasting.a_forecasted_amount r)
                    (filter (fun af => negb (Qeq_bool (fst af) 0)) pairs)).
    { apply filter_In. split; [exact Hin|]. cbn. now rewrite Q0. }
    rewrite E in Hf. destruct Hf.
  - cbn [map]. unfold mean, Qlen. cbn [List.length]. now rewrite length_map.
Qed.

End AccuracyFacts.

(** ** Forecast strategies *)

Module ForecastFacts.
Import Stats PyFacts Runtime.

Lemma Forall_map_intro {A B : Type} (P : B -> Prop) (f : A -> B) (l : list A) :
  (forall x, P (f x)) -> Forall P (map f l).
Proof.
  intros H. apply Forall_forall. intros y Hy.
  apply in_map_iff in Hy. destruct Hy as [x [<- _]]. apply H.
Qed.

(** *** app/services/forecasting.py *)

Section ForecastingService.
Import Forecasting.
Variable np_sqrt : Q -> Q.
Variable r2 mape_of : list Q -> list Q -> Q.
Hypothesis np_sqrt_nonneg : forall x, 0 <= np_sqrt x.

(** The interval of the linear trend is the point estimate give or take
    1.96 standard deviations of the residuals. *)
Lemma linear_trend_interval_ordered (rows : list HistoricalRow) (k : nat)
    (f : LinearForecast) :
  create_linear_trend_forecast np_sqrt r2 mape_of rows k = Forecast f ->
  Forall (fun p => confidence_interval_low p <= forecasted_amount p
                   /\ forecasted_amount p <= confidence_interval_high p)
         (l_forecasts f).
Proof.
  unfold create_linear_trend_forecast.
  destruct (List.length rows <? 6)%nat; [discriminate|].
  intros H. injection H as <-. cbn [l_forecasts].
  apply Forall_map_intro. intros i. cbn.
  match goal with |- context [np_std np_sqrt ?r] =>
    pose proof (np_sqrt_nonneg (variance_pop r)) as Hs; unfold np_std;
    set (s := np_sqrt (variance_pop r)) in *
  end.
  split; lra.
Qed.

End ForecastingService.


(** *** Floors *)

Section Floors.
Variable np_sqrt : Q -> Q.
Variable py_pow : Q -> Q -> Q.
Variable np_polyfit : list Q -> list Q -> nat -> list Q.
Variable _get_forecast_period : nat -> string.

Lemma trend_floor (revenues : list Q) (params : RevenuePlanning.Params) :
  revenues <> [] ->
  RevenuePlanning.get (RevenuePlanning.trend_type params) "linear" = "linear"
  \/ RevenuePlanning.get (RevenuePlanning.trend_type params) "linear" = "polynomial" ->
  exists data,
    RevenuePlanning.trend_forecast_data py_pow np_polyfit _get_forecast_period
      revenues params = Ok data
    /\ List.length data
       = RevenuePlanning.get (RevenuePlanning.forecast_months params) 12%nat
    /\ Forall (fun e => 0 <= RevenuePlanning.forecast e) data.
Proof.
  intros Hne Htype. unfold RevenuePlanning.trend_forecast_data.
  destruct revenues as [|r rs]; [congruence|].
  destruct Htype as [-> | ->]; cbn [String.eqb Ascii.eqb Bool.eqb];
    eexists; (split; [reflexivity|]);
    (split; [now rewrite length_map, length_seq
            | apply Forall_map_intro; intros i; apply max0_nonneg]).
Qed.

Lemma forecast_row_nonneg (y m : Z) (i : nat) (x : Q) :
  0 <= PlanningRoutes.revenue (PlanningRoutes.forecast_row y m i x).
Proof. apply max0_nonneg. Qed.

Lemma exponential_floor (hd : list PlanningRoutes.HistoricalData) (months : nat)
    (gm : PlanningRoutes.RevenueGrowthModel) :
  0 <= 1 + PlanningRoutes.base_growth_rate gm ->
  exists rows,
    PlanningRoutes.exponential_forecast py_pow hd months gm = Ok rows
    /\ List.length rows = months
    /\ Forall (fun r => 0 <= PlanningRoutes.revenue r) rows.
Proof.
  intros Hg. unfold PlanningRoutes.exponential_forecast.
  apply Qlt_bool_false_iff in Hg. rewrite Hg. cbn [andb].
  eexists. split; [reflexivity|].
  split; [now rewrite length_map, length_seq|].
  apply Forall_map_intro. intros i. apply forecast_row_nonneg.
Qed.

Lemma generate_forecast_floor (hd : list PlanningRoutes.HistoricalData) (months : nat)
    (gm : PlanningRoutes.RevenueGrowthModel) :
  0 <= 1 + PlanningRoutes.base_growth_rate gm ->
  exists rows,
    PlanningRoutes._generate_forecast py_pow hd months gm = Ok rows
    /\ Forall (fun r => 0 <= PlanningRoutes.revenue r) rows.
Proof.
  intros Hg. unfold PlanningRoutes._generate_forecast.
  destruct hd as [|h hd']; [exists []; split; [reflexivity | constructor]|].
  set (hd := h :: hd').
  destruct (String.eqb (PlanningRoutes.method gm) "linear").
  { eexists. split; [reflexivity|].
    apply Forall_map_intro. intros i. apply forecast_row_nonneg. }
  destruct (String.eqb (PlanningRoutes.method gm) "exponential").
  { destruct (exponential_floor hd months gm Hg) as [rows [E [_ F]]].
    exists rows. now split. }
  destruct (String.eqb (PlanningRoutes.method gm) "seasonal");
    [|exists []; split; [reflexivity | constructor]].
  destruct (12 <=? List.length (map PlanningRoutes.revenue hd))%nat.
  { eexists. split; [reflexivity|].
    apply Forall_map_intro. intros i. apply forecast_row_nonneg. }
  match goal with |- context [PlanningRoutes.exponential_forecast _ _ _ ?g] =>
    destruct (exponential_floor hd months g Hg) as [rows [E [_ F]]]
  end.
  exists rows. now split.
Qed.


End Floors.


(** The six forecasts of the witness history fall below zero from the
    first month on, and the floor holds them at 0. *)
Example linear_trend_floor_at_work :
  let history :=
    map (fun r => {| RevenuePlanning.year := 2024; RevenuePlanning.month := 1;
                     RevenuePlanning.period := "2024-01";
                     RevenuePlanning.revenue := r;
                     RevenuePlanning.type_ := "actual" |})
        [600; 500; 400; 300; 200; 100] in
  match RevenuePlanning.trend_forecast_data pow1 polyfit_line forecast_period
          (map RevenuePlanning.revenue history)
          {| RevenuePlanning.method := None;
             RevenuePlanning.forecast_months := Some 3%nat;
             RevenuePlanning.trend_type := None;
             RevenuePlanning.growth_rate := None;
             RevenuePlanning.polynomial_degree := None;
             RevenuePlanning.confidence_level := None |} with
  | Ok data => map (fun e => Qred (RevenuePlanning.forecast e)) data = [0; 0; 0]
  | Raise _ => False
  end.
Proof. vm_compute. reflexivity. Qed.

(** *** Short histories *)





(** *** Intervals *)


(** Where the half-width is a number, the intervals are ordered: the
    revenue planner and the forecast route build them around a forecast
    that is not negative. *)
Section OrderedIntervals.
Variable np_sqrt : Q -> Q.
Hypothesis np_sqrt_nonneg : forall x, 0 <= np_sqrt x.

Lemma z_score_nonneg (c : Q) : 0 <= RevenuePlanning.z_score c.
Proof.
  unfold RevenuePlanning.z_score.
  repeat match goal with |- context [Qeq_bool ?a ?b] => destruct (Qeq_bool a b) end;
    unfold Qle; cbn; lia.
Qed.

Lemma forecast_confidence_ordered
    (forecast_data : list RevenuePlanning.ForecastEntry)
    (historical_data : list RevenuePlanning.HistoricalRevenue) (c : Q) :
  Forall (fun e => 0 <= RevenuePlanning.forecast e) forecast_data ->
  Forall (fun ci => RevenuePlanning.lower ci <= RevenuePlanning.ci_forecast ci
                    /\ RevenuePlanning.ci_forecast ci <= RevenuePlanning.upper ci)
         (RevenuePlanning._calculate_forecast_confidence np_sqrt
            forecast_data historical_data c).
Proof.
  intros Hf. unfold RevenuePlanning._calculate_forecast_confidence.
  set (vol := if (1 <? _)%nat then _ else _).
  assert (Hvol : 0 <= vol).
  { unfold vol. destruct (1 <? _)%nat; [apply np_sqrt_nonneg | unfold Qle; cbn; lia]. }
  apply Forall_forall. intros ci Hci. apply in_map_iff in Hci.
  destruct Hci as [[i e] [<- Hin]]. apply in_combine_r in Hin.
  rewrite Forall_forall in Hf. specialize (Hf e Hin).
  cbn [RevenuePlanning.lower RevenuePlanning.upper RevenuePlanning.ci_forecast fst snd].
  pose proof (np_sqrt_nonneg (inject_Z (Z.of_nat (i + 1)))) as Hs.
  pose proof (z_score_nonneg c) as Hz.
  set (u := vol * np_sqrt (inject_Z (Z.of_nat (i + 1))) * RevenuePlanning.z_score c).
  assert (Hu : 0 <= u).
  { unfold u. apply Qmult_le_0_compat; [apply Qmult_le_0_compat|]; assumption. }
  set (f := RevenuePlanning.forecast e) in *.
  assert (Hfu : 0 <= f * u) by (apply Qmult_le_0_compat; assumption).
  split; [apply max0_le; [exact Hf|]|]; nra.
Qed.

Lemma route_intervals_ordered
    (forecast_data historical_data : list PlanningRoutes.HistoricalData) (c : Q) :
  Forall (fun r => 0 <= PlanningRoutes.revenue r) forecast_data ->
  Forall (fun iv => PlanningRoutes.lower iv <= PlanningRoutes.i_forecast iv
                    /\ PlanningRoutes.i_forecast iv <= PlanningRoutes.upper iv)
         (PlanningRoutes._calculate_confidence_intervals np_sqrt
            forecast_data historical_data c).
Proof.
  intros Hf. unfold PlanningRoutes._calculate_confidence_intervals.
  rewrite Forall_forall in Hf.
  destruct (_ <? 3)%nat.
  - apply Forall_forall. intros iv Hiv. apply in_map_iff in Hiv.
    destruct Hiv as [d [<- Hin]]. specialize (Hf d Hin).
    cbn [PlanningRoutes.lower PlanningRoutes.upper PlanningRoutes.i_forecast].
    split; nra.
  - set (sd := if (1 <? _)%nat then _ else _).
    assert (Hsd : 0 <= sd).
    { unfold sd. destruct (1 <? _)%nat; [apply np_sqrt_nonneg | unfold Qle; cbn; lia]. }
    apply Forall_forall. intros iv Hiv. apply in_map_iff in Hiv.
    destruct Hiv as [[i d] [<- Hin]]. apply in_combine_r in Hin. specialize (Hf d Hin).
    cbn [PlanningRoutes.lower PlanningRoutes.upper PlanningRoutes.i_forecast fst snd].
    pose proof (z_score_nonneg c) as Hz.
    assert (Hi : 0 <= 1 + inject_Z (Z.of_nat i) * (5 # 100)).
    { assert (0 <= inject_Z (Z.of_nat i)) by (unfold Qle; cbn; lia). nra. }
    set (w := sd * RevenuePlanning.z_score c
              * (1 + inject_Z (Z.of_nat i) * (5 # 100)) * PlanningRoutes.revenue d).
    assert (Hw : 0 <= w).
    { unfold w. repeat apply Qmult_le_0_compat; assumption. }
    split; [apply max0_le; [exact Hf|]|]; lra.
Qed.

End OrderedIntervals.

End ForecastFacts.

(** * Further properties of the embedded code *)

(** ** Sums and dicts *)

Module ContainerFacts.
Import PyFacts.

Lemma fold_plus_acc (l : list Q) (acc : Q) :
  fold_left Qplus l acc == acc + fold_left Qplus l 0.
Proof.
  revert acc. induction l as [|x l IH]; intros acc; cbn [fold_left]; [lra|].
  rewrite (IH (acc + x)), (IH (0 + x)). lra.
Qed.

Lemma Qsum_cons (x : Q) (l : list Q) : Qsum (x :: l) == x + Qsum l.
Proof. unfold Qsum. cbn [fold_left]. rewrite fold_plus_acc. lra. Qed.

Lemma Qsum_app (l1 l2 : list Q) : Qsum (l1 ++ l2) == Qsum l1 + Qsum l2.
Proof.
  induction l1 as [|x l1 IH]; [unfold Qsum; cbn; lra|].
  cbn [app]. rewrite !Qsum_cons, IH. lra.
Qed.

Lemma Qsum_map_minus {A : Type} (f g : A -> Q) (l : list A) :
  Qsum (map (fun x => f x - g x) l) == Qsum (map f l) - Qsum (map g l).
Proof.
  induction l as [|x l IH]; [unfold Qsum; cbn; lra|].
  cbn [map]. rewrite !Qsum_cons, IH. lra.
Qed.

Lemma Qsum_map_ext {A : Type} (f g : A -> Q) (l : list A) :
  (forall x, In x l -> f x == g x) -> Qsum (map f l) == Qsum (map g l).
Proof.
  induction l as [|x l IH]; intros H; [reflexivity|].
  cbn [map]. rewrite !Qsum_cons, IH, (H x) by (intros; apply H; now right) || now left.
  reflexivity.
Qed.

Lemma Qsum_map_scale {A : Type} (c : Q) (f : A -> Q) (l : list A) :
  Qsum (map (fun x => f x * c) l) == Qsum (map f l) * c.
Proof.
  induction l as [|x l IH]; [unfold Qsum; cbn; lra|].
  cbn [map]. rewrite !Qsum_cons, IH. lra.
Qed.

Lemma Qsum_all_zero (l : list Q) : Forall (fun x => x == 0) l -> Qsum l == 0.
Proof.
  induction 1 as [|x l Hx Hl IH]; [reflexivity|].
  rewrite Qsum_cons, IH, Hx. lra.
Qed.

Lemma dict_get_set_same {V : Type} (k : string) (v : V) (d : dict V) :
  dict_get k (dict_set k v d) = Some v.
Proof.
  induction d as [|[k' v'] d IH]; cbn.
  - now rewrite String.eqb_refl.
  - destruct (String.eqb k k') eqn:E; cbn; rewrite E; [reflexivity | exact IH].
Qed.

Lemma dict_get_set_other {V : Type} (k k' : string) (v : V) (d : dict V) :
  k <> k' -> dict_get k (dict_set k' v d) = dict_get k d.
Proof.
  intros Hne. induction d as [|[k2 v2] d IH]; cbn.
  - apply String.eqb_neq in Hne. now rewrite Hne.
  - destruct (String.eqb k' k2) eqn:E; cbn.
    + apply String.eqb_eq in E. subst k2.
      apply String.eqb_neq in Hne. now rewrite Hne.
    + destruct (String.eqb k k2); [reflexivity | exact IH].
Qed.

End ContainerFacts.

(** ** Driver relationships, further *)

Module DriverBasedPlanningMore.
Import DriverBasedPlanning DriverBasedPlanningReadings Runtime PyFacts ContainerFacts.

Section StepOutcome.
Variable py_float : string -> option Q.

Lemma step_loop_outcome (x : Q) (steps : list string) :
  match step_loop py_float x steps with
  | Ok v =>
      v = 0 \/
      exists step range_part value_part,
        In step steps /\ str_split ":" step = [range_part; value_part]
        /\ py_float value_part = Some v
  | Raise e => e = ValueError
  end.
Proof.
  induction steps as [|step rest IH]; [now left|].
  assert (Hrest :
    match step_loop py_float x rest with
    | Ok v =>
        v = 0 \/
        exists s r p, In s (step :: rest) /\ str_split ":" s = [r; p] /\ py_float p = Some v
    | Raise e => e = ValueError
    end).
  { destruct (step_loop py_float x rest) as [v|e]; [|exact IH].
    destruct IH as [H0 | [s [r [p [Hin H]]]]]; [now left|].
    right. exists s, r, p. split; [now right | exact H]. }
  cbn [step_loop].
  destruct (str_split ":" step) as [|range_part [|value_part [|? ?]]] eqn:Es;
    try reflexivity.
  assert (Hval :
    match of_option ValueError (py_float value_part) with
    | Ok v =>
        v = 0 \/
        exists s r p, In s (step :: rest) /\ str_split ":" s = [r; p] /\ py_float p = Some v
    | Raise e => e = ValueError
    end).
  { destruct (py_float value_part) as [v|] eqn:Ev; cbn; [|reflexivity].
    right. exists step, range_part, value_part. repeat split; [now left | exact Es | exact Ev]. }
  destruct (str_contains "-" range_part); [|exact Hrest].
  destruct (str_split "-" range_part) as [|min_val [|max_val [|? ?]]];
    try reflexivity.
  destruct (String.eqb max_val "+").
  - destruct (py_float min_val) as [lo|]; cbn [of_option bind]; [|reflexivity].
    destruct (Qle_bool lo x); assumption.
  - destruct (py_float min_val) as [lo|]; cbn [of_option bind]; [|reflexivity].
    destruct (Qle_bool lo x); [|assumption].
    destruct (py_float max_val) as [hi|]; cbn [of_option bind]; [|reflexivity].
    destruct (Qle_bool x hi); assumption.
Qed.

(** X1.  [_calculate_step_function] answers 0 or the parsed value part of
    one of the steps of the formula; it raises ValueError on a malformed
    step that the lookup reaches, AttributeError when the relationship has no
    formula, and nothing else. *)
Theorem step_function_outcomes (x : Q) (formula : option string) :
  match _calculate_step_function py_float x formula with
  | Ok v =>
      exists f, formula = Some f /\
      (v = 0 \/
       exists step range_part value_part,
         In step (str_split ";" f) /\ str_split ":" step = [range_part; value_part]
         /\ py_float value_part = Some v)
  | Raise e =>
      (formula = None /\ e = AttributeError) \/ (formula <> None /\ e = ValueError)
  end.
Proof.
  destruct formula as [f|]; cbn [_calculate_step_function]; [|now left].
  pose proof (step_loop_outcome x (str_split ";" f)) as H.
  destruct (step_loop py_float x (str_split ";" f)) as [v|e].
  - exists f. now split.
  - right. split; [discriminate | exact H].
Qed.

End StepOutcome.

Section Aggregation.
Variable py_float : string -> option Q.
Variable py_str : Q -> string.
Variable py_eval : string -> option Q.
Variables is_revenue is_expense : string -> bool.

Lemma account_value_of_set (k k' : string) (v : Q) (d : dict Q) :
  account_value_of k (dict_set k' v d)
  = if String.eqb k' k then v else account_value_of k d.
Proof.
  unfold account_value_of. destruct (String.eqb k' k) eqn:E.
  - apply String.eqb_eq in E. subst. now rewrite dict_get_set_same.
  - apply String.eqb_neq in E. rewrite dict_get_set_other; [reflexivity | congruence].
Qed.

Lemma linear_step (a : dict (dict Q)) (p account : string) (av : dict Q)
    (r : DriverRelationship) :
  is_linear r = true ->
  exists av',
    relationship_step py_float py_str py_eval a p av r = Ok av'
    /\ account_value_of account av'
       == account_value_of account av + linear_contribution a p account r.
Proof.
  unfold is_linear. intros H. apply andb_true_iff in H. destruct H as [Ht Hc].
  destruct (coefficient r) as [c|] eqn:Ec; [|discriminate].
  unfold relationship_step, relationship_value, linear_contribution.
  rewrite Ht, Ec. cbn [of_option bind].
  set (dv := driver_value_for a (business_driver_id r) p).
  destruct (truthy dv) eqn:Hdv.
  - eexists. split; [reflexivity|].
    rewrite account_value_of_set.
    destruct (String.eqb (gl_account_id r) account) eqn:E.
    + apply String.eqb_eq in E. rewrite E.
      unfold dict_mem. destruct (dict_get account av) as [v|] eqn:G.
      * rewrite G. unfold account_value_of. rewrite G. lra.
      * rewrite dict_get_set_same. unfold account_value_of. rewrite G. lra.
    + destruct (dict_mem (gl_account_id r) av); [lra|].
      rewrite account_value_of_set, E. lra.
  - exists av. split; [reflexivity|].
    unfold truthy in Hdv. apply negb_false_iff in Hdv. apply Qeq_bool_iff in Hdv.
    destruct (String.eqb (gl_account_id r) account); [rewrite Hdv|]; lra.
Qed.

(** X2.  With linear relationships only, the loop over the relationships
    never raises, and the value it leaves on an account is the value the
    account had plus the sum of [driver_value * coefficient] over the
    relationships that target it: several drivers on one account add up. *)
Theorem linear_relationships_add_up (a : dict (dict Q)) (p account : string)
    (rels : list DriverRelationship) (av : dict Q)
    (Hlin : forallb is_linear rels = true) :
  exists av',
    relationships_loop py_float py_str py_eval a p av rels = Ok av'
    /\ account_value_of account av'
       == account_value_of account av
          + Qsum (map (linear_contribution a p account) rels).
Proof.
  revert av. induction rels as [|r rels IH]; intros av.
  - exists av. split; [reflexivity|]. unfold Qsum. cbn. lra.
  - cbn [forallb] in Hlin. apply andb_true_iff in Hlin. destruct Hlin as [Hr Hrels].
    destruct (linear_step a p account av r Hr) as [av1 [E1 V1]].
    destruct (IH Hrels av1) as [av2 [E2 V2]].
    exists av2. cbn [relationships_loop]. rewrite E1. cbn [bind].
    split; [exact E2|]. cbn [map]. rewrite Qsum_cons, V2, V1. lra.
Qed.

End Aggregation.

(** X2 at two drivers on the revenue account: 100 * 2 and 40 * 5 give 400. *)
Lemma linear_relationships_add_up_witness :
  let rels := [Fixtures.rel "r1" "d1" "rev" "linear" (Some 2) None;
               Fixtures.rel "r3" "d3" "rev" "linear" (Some 5) None] in
  let a := [("d1", [("p1", 100)]); ("d3", [("p1", 40)])] in
  forallb is_linear rels = true /\
  exists av',
    relationships_loop decimal_literal no_str no_eval a "p1" [] rels = Ok av'
    /\ account_value_of "rev" av'
       == account_value_of "rev" [] + Qsum (map (linear_contribution a "p1" "rev") rels).
Proof.
  cbv zeta. split; [reflexivity|].
  apply (linear_relationships_add_up decimal_literal no_str no_eval). reflexivity.
Defined.

Section ForecastShape.
Variable py_float : string -> option Q.
Variable py_str : Q -> string.
Variable py_eval : string -> option Q.
Variables is_revenue is_expense : string -> bool.

Lemma periods_loop_shape (rels : list DriverRelationship) (a : dict (dict Q))
    (fiscal_periods : list string) :
  forall results,
    periods_loop py_float py_str py_eval is_revenue is_expense rels fiscal_periods a
    = Ok results ->
    map period_id results = fiscal_periods
    /\ Forall (fun r => ebitda r = total_revenue r - total_expenses r) results.
Proof.
  induction fiscal_periods as [|p ps IH]; intros results H.
  - cbn in H. injection H as <-. split; [reflexivity | constructor].
  - cbn [periods_loop] in H.
    destruct (_calculate_period_forecast _ _ _ _ _ rels p a) as [r|e] eqn:Er;
      [|discriminate].
    cbn [bind] in H.
    destruct (periods_loop _ _ _ _ _ rels ps a) as [rs|e] eqn:Ers; [|discriminate].
    cbn [bind] in H. injection H as <-.
    destruct (IH rs eq_refl) as [Hids Hinv].
    unfold _calculate_period_forecast in Er.
    destruct (relationships_loop _ _ _ a p [] rels) as [av|e]; [|discriminate].
    cbn [bind] in Er. injection Er as <-.
    split; [cbn; now rewrite Hids | constructor; [reflexivity | exact Hinv]].
Qed.

(** X3.  A forecast that succeeds holds one entry for each requested
    period, in the order requested; EBITDA is revenue minus expenses in
    every period and in the summary. *)
Theorem forecast_periods_and_ebitda (rels : list DriverRelationship) (scenario : string)
    (fiscal_periods : list string) (a : dict (dict Q)) (f : Forecast)
    (Hok : calculate_driver_based_forecast py_float py_str py_eval is_revenue is_expense
             rels scenario fiscal_periods a = Ok f) :
  map period_id (periods f) = fiscal_periods
  /\ Forall (fun r => ebitda r = total_revenue r - total_expenses r) (periods f)
  /\ sum_ebitda (summary f)
     == sum_total_revenue (summary f) - sum_total_expenses (summary f).
Proof.
  unfold calculate_driver_based_forecast in Hok.
  destruct (periods_loop _ _ _ _ _ rels fiscal_periods a) as [results|e] eqn:E;
    [|discriminate].
  cbn [bind] in Hok. injection Hok as <-. cbn [periods summary sum_ebitda
    sum_total_revenue sum_total_expenses].
  destruct (periods_loop_shape rels a fiscal_periods results E) as [Hids Hinv].
  split; [exact Hids|]. split; [exact Hinv|].
  rewrite <- Qsum_map_minus. apply Qsum_map_ext.
  intros r Hr. rewrite Forall_forall in Hinv. now rewrite (Hinv r Hr).
Qed.

(** X4.  A percentage relationship takes its base from the running total
    of its own target account: it multiplies what the account holds by
    [1 + coefficient / 100], and leaves 0 on an account that holds nothing
    yet.  The driver value only decides whether it runs. *)
Theorem percentage_applies_to_running_total (a : dict (dict Q)) (p : string)
    (av : dict Q) (r : DriverRelationship) (c : Q)
    (Htype : relationship_type r = "percentage")
    (Hcoef : coefficient r = Some c)
    (Hdv : truthy (driver_value_for a (business_driver_id r) p) = true) :
  exists av',
    relationship_step py_float py_str py_eval a p av r = Ok av'
    /\ account_value_of (gl_account_id r) av'
       == account_value_of (gl_account_id r) av * (1 + c / 100)
    /\ (dict_get (gl_account_id r) av = None ->
        account_value_of (gl_account_id r) av' == 0).
Proof.
  unfold relationship_step, relationship_value. rewrite Hdv, Htype, Hcoef.
  cbn [String.eqb Ascii.eqb Bool.eqb of_option bind].
  eexists. split; [reflexivity|].
  rewrite account_value_of_set, String.eqb_refl.
  unfold dict_mem, account_value_of.
  destruct (dict_get (gl_account_id r) av) as [v|] eqn:G.
  - rewrite G. split; [field | discriminate].
  - rewrite dict_get_set_same. split; [field | intros _; field].
Qed.

End ForecastShape.

(** X3 at the linear fixture over two periods. *)
Lemma forecast_periods_and_ebitda_witness :
  let a := [("d1", [("p1", 100); ("p2", 110)])] in
  exists f,
    calculate_driver_based_forecast decimal_literal no_str no_eval
      Fixtures.is_rev Fixtures.is_exp Fixtures.linear_rels "s1" ["p1"; "p2"] a = Ok f
    /\ map period_id (periods f) = ["p1"; "p2"]
    /\ Forall (fun r => ebitda r = total_revenue r - total_expenses r) (periods f)
    /\ sum_ebitda (summary f)
       == sum_total_revenue (summary f) - sum_total_expenses (summary f).
Proof.
  cbv zeta. eexists. split; [reflexivity|].
  apply (forecast_periods_and_ebitda decimal_literal no_str no_eval
           Fixtures.is_rev Fixtures.is_exp Fixtures.linear_rels "s1" ["p1"; "p2"]
           [("d1", [("p1", 100); ("p2", 110)])]).
  reflexivity.
Defined.

(** X4 at a 10 percent relationship on an account that holds 200. *)
Lemma percentage_applies_to_running_total_witness :
  let r := Fixtures.rel "r4" "d1" "exp" "percentage" (Some 10) None in
  let a := [("d1", [("p1", 7)])] in
  relationship_type r = "percentage" /\ coefficient r = Some 10 /\
  truthy (driver_value_for a (business_driver_id r) "p1") = true /\
  exists av',
    relationship_step decimal_literal no_str no_eval a "p1" [("exp", 200)] r = Ok av'
    /\ account_value_of (gl_account_id r) av'
       == account_value_of (gl_account_id r) [("exp", 200)] * (1 + 10 / 100)
    /\ (dict_get (gl_account_id r) [("exp", 200)] = None ->
        account_value_of (gl_account_id r) av' == 0).
Proof.
  cbv zeta. split; [reflexivity|]. split; [reflexivity|]. split; [reflexivity|].
  apply (percentage_applies_to_running_total decimal_literal no_str no_eval);
    reflexivity.
Defined.

Section SensitivityEdges.
Variable py_float : string -> option Q.
Variable py_str : Q -> string.
Variable py_eval : string -> option Q.
Variables is_revenue is_expense : string -> bool.

Lemma linspace_nonempty (lo hi : Q) (steps : nat) :
  (0 < steps)%nat -> exists v rest, linspace lo hi steps = v :: rest.
Proof.
  intros H. destruct steps as [|[|n]]; [lia | now exists lo, [] |].
  unfold linspace. cbn [seq map]. eexists. eexists. reflexivity.
Qed.

Lemma linspace_length (lo hi : Q) (steps : nat) :
  List.length (linspace lo hi steps) = steps.
Proof.
  destruct steps as [|[|n]]; [reflexivity | reflexivity |].
  unfold linspace. now rewrite length_map, length_seq.
Qed.

Lemma variations_loop_length (rels : list DriverRelationship) (scenario driver : string)
    (base_values : dict nat) (variations : list Q) :
  forall h hr,
    variations_loop py_float py_str py_eval is_revenue is_expense rels scenario driver
      base_values h variations = Ok hr ->
    map variation_pct (snd hr) = variations.
Proof.
  induction variations as [|v vs IH]; intros h hr H.
  - cbn in H. injection H as <-. reflexivity.
  - cbn [variations_loop] in H.
    destruct (dict_get driver base_values) as [l|]; [|discriminate].
    cbn [of_option bind] in H.
    destruct (calculate_driver_based_forecast _ _ _ _ _ _ _ _ _) as [f|e];
      [|discriminate].
    cbn [bind] in H.
    destruct (variations_loop _ _ _ _ _ rels scenario driver base_values _ vs)
      as [hr'|e] eqn:E; [|discriminate].
    cbn [bind] in H. injection H as <-. cbn [snd map variation_pct].
    f_equal. exact (IH _ _ E).
Qed.

(** X5.  A sensitivity run on a driver that has no baseline values raises
    KeyError as soon as the grid holds one point; a run that succeeds
    records one result for each grid point of [np.linspace], in grid order,
    so [steps] results. *)
Theorem sensitivity_results_follow_grid (rels : list DriverRelationship)
    (scenario driver : string) (base_values : dict nat) (h : Heap)
    (range : Q * Q) (steps : nat) :
  (dict_get driver base_values = None -> (0 < steps)%nat ->
   perform_sensitivity_analysis py_float py_str py_eval is_revenue is_expense
     rels scenario driver base_values h range steps = Raise KeyError)
  /\ (forall h' sa,
        perform_sensitivity_analysis py_float py_str py_eval is_revenue is_expense
          rels scenario driver base_values h range steps = Ok (h', sa) ->
        map variation_pct (sensitivity_results sa) = linspace (fst range) (snd range) steps
        /\ List.length (sensitivity_results sa) = steps).
Proof.
  split.
  - intros Hmiss Hsteps. unfold perform_sensitivity_analysis.
    destruct (linspace_nonempty (fst range) (snd range) steps Hsteps) as [v [rest ->]].
    cbn [variations_loop]. rewrite Hmiss. reflexivity.
  - intros h' sa H. unfold perform_sensitivity_analysis in H.
    destruct (variations_loop _ _ _ _ _ rels scenario driver base_values h _)
      as [hr|e] eqn:E; [|discriminate].
    cbn [bind] in H. injection H as <- <-. cbn [sensitivity_results].
    pose proof (variations_loop_length _ _ _ _ _ _ _ E) as Hl.
    split; [exact Hl|].
    rewrite <- (length_map variation_pct), Hl. apply linspace_length.
Qed.

End SensitivityEdges.

(** X5 at the linear fixture: the unknown driver [d9], and eleven steps on [d1]. *)
Lemma sensitivity_results_follow_grid_witness :
  (dict_get "d9" Fixtures.base_values = None /\ (0 < 11)%nat /\
   perform_sensitivity_analysis decimal_literal no_str no_eval
     Fixtures.is_rev Fixtures.is_exp Fixtures.linear_rels "s1" "d9"
     Fixtures.base_values Fixtures.base_heap (-10, 10) 11 = Raise KeyError)
  /\ exists h' sa,
       perform_sensitivity_analysis decimal_literal no_str no_eval
         Fixtures.is_rev Fixtures.is_exp Fixtures.linear_rels "s1" "d1"
         Fixtures.base_values Fixtures.base_heap (-10, 10) 11 = Ok (h', sa)
       /\ map variation_pct (sensitivity_results sa) = linspace (-10) 10 11
       /\ List.length (sensitivity_results sa) = 11%nat.
Proof.
  split.
  - split; [reflexivity|]. split; [lia|].
    apply (proj1 (sensitivity_results_follow_grid decimal_literal no_str no_eval
                    Fixtures.is_rev Fixtures.is_exp Fixtures.linear_rels "s1" "d9"
                    Fixtures.base_values Fixtures.base_heap (-10, 10) 11));
      [reflexivity | lia].
  - eexists. eexists. split; [vm_compute; reflexivity|].
    eapply (proj2 (sensitivity_results_follow_grid decimal_literal no_str no_eval
                    Fixtures.is_rev Fixtures.is_exp Fixtures.linear_rels "s1" "d1"
                    Fixtures.base_values Fixtures.base_heap (-10, 10) 11)).
    vm_compute. reflexivity.
Defined.

(** X6 at the fixture baseline: -10 percent and then +10 percent leave 99. *)
Lemma adjust_driver_compounds_witness :
  dict_get "d1" Fixtures.base_values = Some 0%nat /\
  (0 < List.length Fixtures.base_heap)%nat /\
  NoDup (dict_keys (heap_get Fixtures.base_heap 0)) /\
  heap_get (adjust_driver (adjust_driver Fixtures.base_heap Fixtures.base_values "d1" (-10))
              Fixtures.base_values "d1" 10) 0
  = scaled 10 (scaled (-10) (heap_get Fixtures.base_heap 0)).
Proof.
  assert (Hnd : NoDup (dict_keys (heap_get Fixtures.base_heap 0))).
  { cbn. constructor; [intros [] | constructor]. }
  split; [reflexivity|]. split; [cbn; lia|]. split; [exact Hnd|].
  apply DriverBasedPlanningFacts.adjust_driver_compounds;
    [reflexivity | cbn; lia | exact Hnd].
Defined.

(** *** The impact summary *)

Lemma list_max_ge (x : Q) (l : list Q) :
  x <= list_max x l /\ Forall (fun y => y <= list_max x l) l.
Proof.
  revert x. induction l as [|y l IH]; intros x;
    [unfold list_max; cbn; split; [lra | constructor]|].
  unfold list_max. cbn [fold_left]. fold (list_max (if Qlt_bool x y then y else x) l).
  destruct (IH (if Qlt_bool x y then y else x)) as [H1 H2].
  destruct (Qlt_bool x y) eqn:E;
    [apply Qlt_bool_iff in E | apply Qlt_bool_false_iff in E];
    (split; [lra | constructor; [lra | exact H2]]).
Qed.

Lemma list_min_le (x : Q) (l : list Q) :
  list_min x l <= x /\ Forall (fun y => list_min x l <= y) l.
Proof.
  revert x. induction l as [|y l IH]; intros x;
    [unfold list_min; cbn; split; [lra | constructor]|].
  unfold list_min. cbn [fold_left]. fold (list_min (if Qlt_bool y x then y else x) l).
  destruct (IH (if Qlt_bool y x then y else x)) as [H1 H2].
  destruct (Qlt_bool y x) eqn:E;
    [apply Qlt_bool_iff in E | apply Qlt_bool_false_iff in E];
    (split; [lra | constructor; [lra | exact H2]]).
Qed.

Lemma spread_bounds (f : SensitivityPoint -> Q) (r : SensitivityPoint)
    (rs : list SensitivityPoint) (p q : SensitivityPoint) :
  In p (r :: rs) -> In q (r :: rs) ->
  f p - f q <= list_max (f r) (map f rs) - list_min (f r) (map f rs).
Proof.
  intros Hp Hq.
  destruct (list_max_ge (f r) (map f rs)) as [M1 M2].
  destruct (list_min_le (f r) (map f rs)) as [m1 m2].
  rewrite Forall_forall in M2, m2.
  assert (Hmax : f p <= list_max (f r) (map f rs)).
  { destruct Hp as [<- | Hp]; [exact M1 | apply M2; now apply in_map]. }
  assert (Hmin : list_min (f r) (map f rs) <= f q).
  { destruct Hq as [<- | Hq]; [exact m1 | apply m2; now apply in_map]. }
  lra.
Qed.

(** X7.  The impact summary is empty exactly for no results.  Otherwise its
    revenue and EBITDA sensitivities bound the difference between any two
    recorded points, the margin bounds are ordered, and the breakeven point
    is the variation of the first point whose EBITDA is not positive, absent
    when every EBITDA is positive. *)
Theorem impact_summary_bounds (results : list SensitivityPoint) :
  match _calculate_impact_summary results with
  | None => results = []
  | Some s =>
      (forall p q, In p results -> In q results ->
                   revenue p - revenue q <= revenue_sensitivity s
                   /\ sp_ebitda p - sp_ebitda q <= ebitda_sensitivity s
                   /\ min_ebitda_margin s <= sp_ebitda_margin p
                   /\ sp_ebitda_margin p <= max_ebitda_margin s)
      /\ match breakeven_point s with
         | None => Forall (fun p => 0 < sp_ebitda p) results
         | Some v =>
             exists before p after,
               results = (before ++ p :: after)%list /\ variation_pct p = v
               /\ sp_ebitda p <= 0 /\ Forall (fun b => 0 < sp_ebitda b) before
         end
  end.
Proof.
  destruct results as [|r rs]; [reflexivity|].
  cbn [_calculate_impact_summary revenue_sensitivity ebitda_sensitivity
       min_ebitda_margin max_ebitda_margin breakeven_point].
  split.
  - intros p q Hp Hq.
    split; [now apply spread_bounds|]. split; [now apply spread_bounds|].
    destruct (list_max_ge (sp_ebitda_margin r) (map sp_ebitda_margin rs)) as [M1 M2].
    destruct (list_min_le (sp_ebitda_margin r) (map sp_ebitda_margin rs)) as [m1 m2].
    rewrite Forall_forall in M2, m2.
    destruct Hp as [<- | Hp]; [split; assumption|].
    split; [apply m2 | apply M2]; now apply in_map.
  - generalize (r :: rs). clear. intros l.
    induction l as [|x l IH]; [constructor|].
    cbn [find]. destruct (Qle_bool (sp_ebitda x) 0) eqn:E.
    + cbn [option_map]. exists [], x, l. repeat split; [|constructor].
      now apply Qle_bool_iff.
    + assert (Hx : 0 < sp_ebitda x).
      { apply Qnot_le_lt. intros Hle. apply Qle_bool_iff in Hle. congruence. }
      destruct (find _ l) as [y|]; cbn [option_map] in *.
      * destruct IH as [before [p [after [-> [Hv [Hp Hb]]]]]].
        exists (x :: before), p, after. repeat split; try assumption.
        now constructor.
      * now constructor.
Qed.

End DriverBasedPlanningMore.

(** ** Variance report, further *)

Module VarianceMore.
Import Models SimpleAnalyticsRoutes PyFacts VarianceFacts.

Lemma status_values (row : VarianceRow) (v : Variance) :
  variance_entry row = Some v ->
  (status v = "favorable" \/ status v = "unfavorable" \/ status v = "neutral")
  /\ (status v = "neutral" <-> actual row == budget row).
Proof.
  unfold variance_entry. cbn [py_eq].
  destruct (negb (Qeq_bool (budget row) 0) || negb (Qeq_bool (actual row) 0));
    [|discriminate].
  intros H. injection H as <-. cbn [status].
  pose proof (revenue_status_rule (actual row) (budget row)) as [_ [_ Hn]].
  split; [|exact Hn].
  unfold revenue_status.
  destruct (Qlt_bool 0 (actual row - budget row)); [now left|].
  destruct (Qlt_bool (actual row - budget row) 0); [right; now left | right; now right].
Qed.

(** X8.  [get_variance_analysis] reports, in the order of the query, the
    accounts with a budget or an actual other than zero and leaves the
    others out; every reported status is one of favorable, unfavorable and
    neutral, and it is neutral exactly when actual equals budget. *)
Theorem variance_report_rows (variance_data : list VarianceRow) :
  map v_account_code (get_variance_analysis variance_data)
  = map account_code
      (filter (fun row => negb (Qeq_bool (budget row) 0) || negb (Qeq_bool (actual row) 0))
              variance_data)
  /\ Forall (fun v => status v = "favorable" \/ status v = "unfavorable"
                      \/ status v = "neutral")
            (get_variance_analysis variance_data)
  /\ (forall row v, variance_entry row = Some v ->
                    (status v = "neutral" <-> actual row == budget row)).
Proof.
  split; [|split].
  - induction variance_data as [|row rows IH]; [reflexivity|].
    unfold get_variance_analysis in *. cbn [flat_map filter].
    unfold variance_entry at 1.
    destruct (negb (Qeq_bool (budget row) 0) || negb (Qeq_bool (actual row) 0));
      cbn [app map v_account_code]; now rewrite IH.
  - apply Forall_forall. intros v Hv. unfold get_variance_analysis in Hv.
    apply in_flat_map in Hv. destruct Hv as [row [_ Hin]].
    destruct (variance_entry row) as [v'|] eqn:E; [|destruct Hin].
    destruct Hin as [<- | []]. exact (proj1 (status_values row v' E)).
  - intros row v E. exact (proj2 (status_values row v E)).
Qed.

End VarianceMore.

(** ** Forecasting service, further *)

Module ForecastingMore.
Import Stats Forecasting ForecastReadings Runtime PyFacts ContainerFacts.

Lemma sqrt6_nonneg (x : Q) : 0 <= sqrt6 x.
Proof.
  unfold sqrt6. apply Qle_shift_div_l; [reflexivity|].
  rewrite Qmult_0_l. change 0 with (inject_Z 0). rewrite <- Zle_Qle.
  apply Z.sqrt_nonneg.
Qed.

Section Shapes.
Variable np_sqrt : Q -> Q.
Variable r2 mape_of : list Q -> list Q -> Q.
Hypothesis np_sqrt_nonneg : forall x, 0 <= np_sqrt x.

Lemma seq_offset (n k : nat) : map (fun i => (n + i)%nat) (seq 0 k) = seq n k.
Proof.
  revert n. induction k as [|k IH]; intros n; [reflexivity|].
  cbn [seq map]. f_equal; [lia|].
  rewrite <- seq_shift, map_map, <- (IH (S n)).
  apply map_ext. intros i. lia.
Qed.

Lemma arange_length (n : nat) : List.length (arange n) = n.
Proof. unfold arange. now rewrite length_map, length_seq. Qed.

(** X9.  With six rows or more the linear trend returns a forecast: one
    point for each requested period, indexed from the number of rows on;
    every interval is centred on its point estimate with the same
    half-width, not negative; and between 3 and all of the rows are used
    for the fit. *)
Theorem linear_trend_forecast_shape (rows : list HistoricalRow) (k : nat)
    (Hlen : (6 <= List.length rows)%nat) :
  exists f w,
    create_linear_trend_forecast np_sqrt r2 mape_of rows k = Forecast f
    /\ map period_index (l_forecasts f) = seq (List.length rows) k
    /\ 0 <= w
    /\ Forall (fun p => confidence_interval_low p == forecasted_amount p - w
                        /\ confidence_interval_high p == forecasted_amount p + w
                        /\ confidence_score p = l_r2_score f)
              (l_forecasts f)
    /\ (3 <= historical_periods_used f <= List.length rows)%nat.
Proof.
  unfold create_linear_trend_forecast.
  apply Nat.ltb_ge in Hlen. rewrite Hlen. apply Nat.ltb_ge in Hlen.
  set (amounts := map actual_amount rows).
  set (df := combine (arange (List.length rows)) amounts).
  assert (Hdf : List.length df = List.length rows).
  { unfold df, amounts. rewrite length_combine, arange_length, length_map. lia. }
  set (flt := filter _ df).
  set (df_clean := if (List.length flt <? 3)%nat then df else flt).
  eexists. eexists. split; [reflexivity|].
  cbn [l_forecasts historical_periods_used l_r2_score].
  split; [|refine (conj _ (conj _ _))].
  - rewrite map_map. cbn [period_index]. rewrite Hdf. apply seq_offset.
  - shelve.
  - apply Forall_forall. intros p Hp. apply in_map_iff in Hp.
    destruct Hp as [i [<- _]].
    cbn [confidence_interval_low confidence_interval_high forecasted_amount
         confidence_score].
    split; [reflexivity|]. split; reflexivity.
  - fold df_clean. unfold df_clean.
    destruct (List.length flt <? 3)%nat eqn:E.
    + lia.
    + apply Nat.ltb_ge in E. split; [exact E|].
      rewrite <- Hdf. apply filter_length_le.
  Unshelve.
  apply Qmult_le_0_compat; [unfold Qle; cbn; lia | apply np_sqrt_nonneg].
Qed.

End Shapes.

(** X9 at the six declining rows and three periods ahead. *)
Lemma linear_trend_forecast_shape_witness :
  (forall x, 0 <= sqrt6 x) /\ (6 <= List.length Fixtures.declining_rows)%nat /\
  exists f w,
    create_linear_trend_forecast sqrt6 r2_score mean_absolute_percentage_error
      Fixtures.declining_rows 3 = Forecast f
    /\ map period_index (l_forecasts f) = seq (List.length Fixtures.declining_rows) 3
    /\ 0 <= w
    /\ Forall (fun p => confidence_interval_low p == forecasted_amount p - w
                        /\ confidence_interval_high p == forecasted_amount p + w
                        /\ confidence_score p = l_r2_score f)
              (l_forecasts f)
    /\ (3 <= historical_periods_used f <= List.length Fixtures.declining_rows)%nat.
Proof.
  split; [exact sqrt6_nonneg|]. split; [cbn; lia|].
  apply (linear_trend_forecast_shape sqrt6 r2_score mean_absolute_percentage_error
           sqrt6_nonneg).
  cbn. lia.
Defined.

Section Intervals.
Variable np_sqrt : Q -> Q.
Hypothesis np_sqrt_nonneg : forall x, 0 <= np_sqrt x.

Lemma pd_std_nonneg (l : list Q) (s : Q) : pd_std np_sqrt l = Some s -> 0 <= s.
Proof.
  unfold pd_std. destruct (_ <? 2)%nat; [discriminate|].
  intros H. injection H as <-. apply np_sqrt_nonneg.
Qed.

Lemma float_or_cases (x y : option Q) (s : Q) :
  float_or x y = Some s -> x = Some s \/ y = Some s.
Proof.
  unfold float_or. destruct x as [v|]; [|discriminate].
  destruct (truthy v); intros H; [now left | now right].
Qed.

Lemma groupby_std (df : list HistoricalRow) (sp : SeasonalPattern) :
  In sp (groupby_period_number np_sqrt df) -> exists g, sp_std sp = pd_std np_sqrt g.
Proof.
  unfold groupby_period_number. intros H. apply in_map_iff in H.
  destruct H as [k [<- _]]. eexists. reflexivity.
Qed.

Lemma nan_interval_of_width (point : Q) (ci : option Q) :
  (forall w, ci = Some w -> 0 <= w) ->
  nan_interval_ok (nan_sub point ci) (nan_add point ci) point.
Proof.
  intros H. destruct ci as [w|]; cbn; [|exact I].
  specialize (H w eq_refl). split; lra.
Qed.

(** X10.  With twelve rows or more the seasonal forecast returns one point
    for each requested period; every period number lies in 1..12; and the
    two bounds of an interval are either both NaN or both numbers that
    enclose the point estimate. *)
Theorem seasonal_forecast_points (rows : list HistoricalRow) (k : nat)
    (Hlen : (12 <= List.length rows)%nat) :
  exists f,
    create_seasonal_forecast np_sqrt rows k = Forecast f
    /\ List.length (s_forecasts f) = k
    /\ Forall (fun p => (1 <= s_period_number p <= 12)%Z
                        /\ nan_interval_ok (s_confidence_interval_low p)
                             (s_confidence_interval_high p) (s_forecasted_amount p))
              (s_forecasts f).
Proof.
  unfold create_seasonal_forecast.
  apply Nat.ltb_ge in Hlen. rewrite Hlen.
  eexists. split; [reflexivity|]. cbn [s_forecasts].
  split; [now rewrite length_map, length_seq|].
  apply Forall_forall. intros p Hp. apply in_map_iff in Hp.
  destruct Hp as [i [<- _]].
  cbn [s_period_number s_confidence_interval_low s_confidence_interval_high
       s_forecasted_amount].
  split.
  - pose proof (Z.mod_pos_bound
                  (Zmax_list (map period_number rows) + Z.of_nat i) 12 ltac:(lia)).
    lia.
  - apply nan_interval_of_width. intros w Hw.
    unfold nan_scale in Hw.
    destruct (float_or _ _) as [s|] eqn:Ef; [|discriminate].
    cbn in Hw. injection Hw as <-.
    assert (Hs : 0 <= s).
    { apply float_or_cases in Ef. destruct Ef as [Ef | Ef].
      - destruct (filter _ (groupby_period_number np_sqrt rows)) as [|sp sps] eqn:Eg.
        + cbn [snd] in Ef. exact (pd_std_nonneg _ _ Ef).
        + cbn [snd] in Ef.
          assert (Hin : In sp (groupby_period_number np_sqrt rows)).
          { assert (Hin' : In sp (sp :: sps)) by now left.
            rewrite <- Eg in Hin'. now apply filter_In in Hin'. }
          destruct (groupby_std rows sp Hin) as [g Hg].
          rewrite Hg in Ef. exact (pd_std_nonneg _ _ Ef).
      - exact (pd_std_nonneg _ _ Ef). }
    apply Qmult_le_0_compat; [unfold Qle; cbn; lia | exact Hs].
Qed.

Lemma insert_by_length {A : Type} (le : A -> A -> bool) (x : A) (l : list A) :
  List.length (insert_by le x l) = S (List.length l).
Proof.
  induction l as [|y l IH]; [reflexivity|].
  cbn. destruct (le y x); cbn; [now rewrite IH | reflexivity].
Qed.

Lemma sort_by_length {A : Type} (le : A -> A -> bool) (l : list A) :
  List.length (sort_by le l) = List.length l.
Proof.
  unfold sort_by.
  assert (H : forall acc, List.length (fold_left (fun acc x => insert_by le x acc) l acc)
                          = (List.length acc + List.length l)%nat).
  { induction l as [|x l IH]; intros acc; cbn; [lia|].
    rewrite IH, insert_by_length. lia. }
  now rewrite H.
Qed.

(** X11.  With at least [window] rows the moving average returns a flat
    forecast: every point carries the latest moving average.  With a window
    of two or more the bounds are numbers that enclose it; with a window of
    one they are NaN. *)
Theorem moving_average_forecast_flat (rows : list HistoricalRow) (window k : nat)
    (Hwindow : (1 <= window)%nat)
    (Hlen : (window <= List.length rows)%nat) :
  exists f,
    create_moving_average_forecast np_sqrt rows window k = Forecast f
    /\ List.length (m_forecasts f) = k
    /\ Forall (fun p => m_forecasted_amount p = latest_moving_average f
                        /\ match m_confidence_interval_low p,
                                 m_confidence_interval_high p with
                           | Some l, Some h =>
                               (2 <= window)%nat
                               /\ l <= m_forecasted_amount p
                               /\ m_forecasted_amount p <= h
                           | None, None => (window < 2)%nat
                           | _, _ => False
                           end)
              (m_forecasts f).
Proof.
  unfold create_moving_average_forecast.
  apply Nat.leb_le in Hlen.
  assert (G : (List.length rows <? window)%nat = false).
  { apply Nat.ltb_ge. now apply Nat.leb_le. }
  rewrite G. apply Nat.leb_le in Hlen.
  set (recent := skipn _ _).
  assert (Hrec : List.length recent = window).
  { unfold recent. rewrite length_skipn, length_map, sort_by_length. lia. }
  eexists. split; [reflexivity|]. cbn [m_forecasts latest_moving_average].
  split; [now rewrite length_map, length_seq|].
  apply Forall_forall. intros p Hp. apply in_map_iff in Hp.
  destruct Hp as [i [<- _]].
  cbn [m_forecasted_amount m_confidence_interval_low m_confidence_interval_high].
  split; [reflexivity|].
  unfold pd_std. rewrite Hrec.
  destruct (window <? 2)%nat eqn:Ew; cbn.
  - now apply Nat.ltb_lt.
  - apply Nat.ltb_ge in Ew. split; [exact Ew|].
    pose proof (np_sqrt_nonneg (variance_sample recent)) as Hs.
    split; nra.
Qed.

End Intervals.

(** X10 at one year of rows. *)
Lemma seasonal_forecast_points_witness :
  (forall x, 0 <= sqrt6 x) /\ (12 <= List.length Fixtures.one_year_rows)%nat /\
  exists f,
    create_seasonal_forecast sqrt6 Fixtures.one_year_rows 12 = Forecast f
    /\ List.length (s_forecasts f) = 12%nat
    /\ Forall (fun p => (1 <= s_period_number p <= 12)%Z
                        /\ nan_interval_ok (s_confidence_interval_low p)
                             (s_confidence_interval_high p) (s_forecasted_amount p))
              (s_forecasts f).
Proof.
  split; [exact sqrt6_nonneg|]. split; [cbn; lia|].
  apply (seasonal_forecast_points sqrt6 sqrt6_nonneg). cbn. lia.
Defined.

(** X11 at the six declining rows and a window of three. *)
Lemma moving_average_forecast_flat_witness :
  (forall x, 0 <= sqrt6 x) /\ (1 <= 3)%nat /\
  (3 <= List.length Fixtures.declining_rows)%nat /\
  exists f,
    create_moving_average_forecast sqrt6 Fixtures.declining_rows 3 4 = Forecast f
    /\ List.length (m_forecasts f) = 4%nat
    /\ Forall (fun p => m_forecasted_amount p = latest_moving_average f
                        /\ match m_confidence_interval_low p,
                                 m_confidence_interval_high p with
                           | Some l, Some h =>
                               (2 <= 3)%nat
                               /\ l <= m_forecasted_amount p
                               /\ m_forecasted_amount p <= h
                           | None, None => (3 < 2)%nat
                           | _, _ => False
                           end)
              (m_forecasts f).
Proof.
  split; [exact sqrt6_nonneg|]. split; [lia|]. split; [cbn; lia|].
  apply (moving_average_forecast_flat sqrt6 sqrt6_nonneg); cbn; lia.
Defined.

End ForecastingMore.

(** ** Least squares and the trend of the revenue planner *)

Module TrendFacts.
Import Stats Runtime PyFacts ContainerFacts.

Lemma Qlen_cons (x : Q) (l : list Q) : Qlen (x :: l) == Qlen l + 1.
Proof.
  unfold Qlen. cbn [List.length]. rewrite Nat2Z.inj_succ, <- Z.add_1_r, inject_Z_plus.
  reflexivity.
Qed.

Lemma Qlen_nonneg (l : list Q) : 0 <= Qlen l.
Proof. unfold Qlen. change 0 with (inject_Z 0). rewrite <- Zle_Qle. lia. Qed.

Lemma Qsum_affine (a b : Q) (xs : list Q) :
  Qsum (map (fun x => a + b * x) xs) == Qlen xs * a + b * Qsum xs.
Proof.
  induction xs as [|x xs IH];
    [cbn [map]; change (Qlen []) with 0; change (Qsum []) with 0; lra|].
  cbn [map]. rewrite !Qsum_cons, Qlen_cons, IH. lra.
Qed.

Lemma Qsum_cross (a b : Q) (xs : list Q) :
  Qsum (map (fun xy => fst xy * snd xy) (combine xs (map (fun x => a + b * x) xs)))
  == a * Qsum xs + b * Qsum (map sq xs).
Proof.
  induction xs as [|x xs IH];
    [cbn [map combine]; change (Qsum []) with 0; lra|].
  cbn [map combine fst snd]. rewrite !Qsum_cons, IH. unfold sq. lra.
Qed.

(** X12.  The least-squares line through points that lie on a line
    [y = a + b x] is that line, whenever the abscissae are not all equal
    (the determinant of the normal equations is not zero). *)
Theorem polyfit1_recovers_line (xs : list Q) (a b : Q)
    (Hdet : ~ Qlen xs * Qsum (map sq xs) - Qsum xs * Qsum xs == 0) :
  fst (polyfit1 xs (map (fun x => a + b * x) xs)) == b
  /\ snd (polyfit1 xs (map (fun x => a + b * x) xs)) == a.
Proof.
  assert (Hn : ~ Qlen xs == 0).
  { destruct xs as [|x xs];
      [exfalso; apply Hdet; cbn [map]; change (Qlen []) with 0;
       change (Qsum []) with 0; lra|].
    rewrite Qlen_cons. pose proof (Qlen_nonneg xs). lra. }
  unfold polyfit1. cbn [fst snd].
  rewrite Qsum_cross, Qsum_affine.
  set (n := Qlen xs) in *. set (sx := Qsum xs) in *. set (sxx := Qsum (map sq xs)) in *.
  assert (Hslope : (n * (a * sx + b * sxx) - sx * (n * a + b * sx)) / (n * sxx - sx * sx) == b).
  { field. exact Hdet. }
  split; [exact Hslope|].
  rewrite Hslope. field. exact Hn.
Qed.

Lemma arange_succ (n : nat) :
  arange (S n) = (arange n ++ [inject_Z (Z.of_nat n)])%list.
Proof. unfold arange. rewrite seq_S, map_app. reflexivity. Qed.

Lemma inject_succ (n : nat) : inject_Z (Z.of_nat (S n)) == inject_Z (Z.of_nat n) + 1.
Proof. rewrite Nat2Z.inj_succ, <- Z.add_1_r, inject_Z_plus. reflexivity. Qed.

Lemma Qlen_arange (n : nat) : Qlen (arange n) = inject_Z (Z.of_nat n).
Proof. unfold Qlen, arange. now rewrite length_map, length_seq. Qed.

(** The sums of [0 + 1 + ... + (n-1)] and of the squares. *)
Lemma arange_sums (n : nat) :
  2 * Qsum (arange n) == inject_Z (Z.of_nat n) * (inject_Z (Z.of_nat n) - 1)
  /\ 6 * Qsum (map sq (arange n))
     == (inject_Z (Z.of_nat n) - 1) * inject_Z (Z.of_nat n)
        * (2 * inject_Z (Z.of_nat n) - 1).
Proof.
  induction n as [|n [IH1 IH2]];
    [change (arange 0) with (@nil Q); cbn [map]; change (Qsum []) with 0;
     change (inject_Z (Z.of_nat 0)) with 0; split; lra|].
  rewrite arange_succ, map_app, !Qsum_app, inject_succ.
  cbn [map]. assert (E : forall x, Qsum [x] == x) by (intros; unfold Qsum; cbn; lra).
  rewrite !E. set (N := inject_Z (Z.of_nat n)) in *.
  change (sq N) with (N * N).
  set (s1 := Qsum (arange n)) in *. set (s2 := Qsum (map sq (arange n))) in *.
  clearbody N s1 s2. split; nra.
Qed.

Lemma arange_determinant (n : nat) :
  (2 <= n)%nat ->
  0 < Qlen (arange n) * Qsum (map sq (arange n)) - Qsum (arange n) * Qsum (arange n).
Proof.
  intros Hn. rewrite Qlen_arange.
  destruct (arange_sums n) as [H1 H2].
  assert (HN : 2 <= inject_Z (Z.of_nat n)).
  { change 2 with (inject_Z 2). rewrite <- Zle_Qle. lia. }
  set (N := inject_Z (Z.of_nat n)) in *.
  set (s1 := Qsum (arange n)) in *. set (s2 := Qsum (map sq (arange n))) in *.
  clearbody N s1 s2.
  assert (E1 : 4 * (s1 * s1) == (N * (N - 1)) * (N * (N - 1)))
    by (rewrite <- H1; ring).
  assert (E2 : 6 * (N * s2) == N * ((N - 1) * N * (2 * N - 1)))
    by (rewrite <- H2; ring).
  assert (E : 12 * (N * s2 - s1 * s1) == (N * N) * ((N - 1) * (N + 1))).
  { setoid_replace (12 * (N * s2 - s1 * s1))
      with (2 * (6 * (N * s2)) - 3 * (4 * (s1 * s1))) by ring.
    rewrite E1, E2. ring. }
  assert (P1 : 0 < N * N) by nra.
  assert (P2 : 0 < (N - 1) * (N + 1)) by nra.
  assert (P : 0 < (N * N) * ((N - 1) * (N + 1))) by (apply Qmult_lt_0_compat; assumption).
  lra.
Qed.

(** X12 at the abscissae 0, 1, 2 and the line [y = 1 + 2 x]. *)
Lemma polyfit1_recovers_line_witness :
  ~ Qlen [0; 1; 2] * Qsum (map sq [0; 1; 2]) - Qsum [0; 1; 2] * Qsum [0; 1; 2] == 0 /\
  fst (polyfit1 [0; 1; 2] (map (fun x => 1 + 2 * x) [0; 1; 2])) == 2 /\
  snd (polyfit1 [0; 1; 2] (map (fun x => 1 + 2 * x) [0; 1; 2])) == 1.
Proof.
  assert (H : ~ Qlen [0; 1; 2] * Qsum (map sq [0; 1; 2])
                - Qsum [0; 1; 2] * Qsum [0; 1; 2] == 0)
    by (vm_compute; discriminate).
  split; [exact H|]. exact (polyfit1_recovers_line [0; 1; 2] 1 2 H).
Defined.

Lemma max0_comp (x y : Q) : x == y -> max0 x == max0 y.
Proof.
  intros H. unfold max0. rewrite (Qlt_bool_comp 0 0 x y) by (reflexivity || exact H).
  destruct (Qlt_bool 0 y); [exact H | reflexivity].
Qed.

Section LinearTrend.
Variable py_pow : Q -> Q -> Q.
Variable np_polyfit : list Q -> list Q -> nat -> list Q.
Variable _get_forecast_period : nat -> string.

(** X13.  On revenues that lie on a line, [a + b i] for month [i] of [n]
    months (two at least), the linear trend of the revenue planner returns
    for forecast month [k] the line at index [n + k], floored at zero. *)
Theorem linear_trend_extrapolates_line (n : nat) (a b : Q)
    (params : RevenuePlanning.Params)
    (Hn : (2 <= n)%nat)
    (Htype : RevenuePlanning.get (RevenuePlanning.trend_type params) "linear" = "linear") :
  exists data,
    RevenuePlanning.trend_forecast_data py_pow np_polyfit _get_forecast_period
      (map (fun x => a + b * x) (arange n)) params = Ok data
    /\ map RevenuePlanning.fe_month data
       = seq 1 (RevenuePlanning.get (RevenuePlanning.forecast_months params) 12%nat)
    /\ Forall (fun e =>
                 RevenuePlanning.forecast e
                 == max0 (a + b * (inject_Z (Z.of_nat n)
                                   + inject_Z (Z.of_nat (RevenuePlanning.fe_month e)))))
              data.
Proof.
  unfold RevenuePlanning.trend_forecast_data. rewrite Htype.
  cbn [String.eqb Ascii.eqb Bool.eqb].
  set (revenues := map (fun x => a + b * x) (arange n)).
  assert (Hlen : List.length revenues = n).
  { unfold revenues, arange. now rewrite !length_map, length_seq. }
  destruct revenues as [|r rs] eqn:Er; [cbn in Hlen; lia|]. rewrite <- Er in *.
  rewrite Hlen.
  eexists. split; [reflexivity|]. split.
  - rewrite map_map. cbn [RevenuePlanning.fe_month]. apply map_id.
  - apply Forall_forall. intros e He. apply in_map_iff in He.
    destruct He as [i [<- _]].
    cbn [RevenuePlanning.forecast RevenuePlanning.fe_month].
    apply max0_comp.
    assert (Hd : ~ Qlen (arange n) * Qsum (map sq (arange n))
                   - Qsum (arange n) * Qsum (arange n) == 0).
    { pose proof (arange_determinant n Hn). lra. }
    destruct (polyfit1_recovers_line (arange n) a b Hd) as [Hs Hi].
    fold revenues in Hs, Hi. rewrite Hs, Hi.
    assert (HQ : Qlen revenues == inject_Z (Z.of_nat n)).
    { unfold Qlen. rewrite Hlen. reflexivity. }
    rewrite HQ. ring.
Qed.

End LinearTrend.

(** X13 at twelve months on the line [100 + 10 i], default parameters. *)
Lemma linear_trend_extrapolates_line_witness :
  (2 <= 12)%nat /\
  RevenuePlanning.get (RevenuePlanning.trend_type Fixtures.default_params) "linear"
  = "linear" /\
  exists data,
    RevenuePlanning.trend_forecast_data pow1 polyfit_line forecast_period
      (map (fun x => 100 + 10 * x) (arange 12)) Fixtures.default_params = Ok data
    /\ map RevenuePlanning.fe_month data
       = seq 1 (RevenuePlanning.get
                  (RevenuePlanning.forecast_months Fixtures.default_params) 12%nat)
    /\ Forall (fun e =>
                 RevenuePlanning.forecast e
                 == max0 (100 + 10 * (inject_Z (Z.of_nat 12)
                                      + inject_Z (Z.of_nat (RevenuePlanning.fe_month e)))))
              data.
Proof.
  split; [lia|]. split; [reflexivity|].
  apply (linear_trend_extrapolates_line pow1 polyfit_line forecast_period);
    [lia | reflexivity].
Defined.

End TrendFacts.

(** ** Forecasts with their intervals *)

Module IntervalFacts.
Import Stats Runtime ForecastReadings PyFacts ContainerFacts ForecastFacts ForecastingMore.

Section Enclosed.
Variable np_sqrt : Q -> Q.
Variable py_pow : Q -> Q -> Q.
Variable np_polyfit : list Q -> list Q -> nat -> list Q.
Variable _get_forecast_period : nat -> string.
Hypothesis np_sqrt_nonneg : forall x, 0 <= np_sqrt x.

Lemma forecast_confidence_forecasts
    (forecast_data : list RevenuePlanning.ForecastEntry)
    (historical_data : list RevenuePlanning.HistoricalRevenue) (c : Q) :
  map RevenuePlanning.ci_forecast
      (RevenuePlanning._calculate_forecast_confidence np_sqrt forecast_data historical_data c)
  = map RevenuePlanning.forecast forecast_data
  /\ Forall (fun ci => 0 <= RevenuePlanning.lower ci)
            (RevenuePlanning._calculate_forecast_confidence np_sqrt
               forecast_data historical_data c).
Proof.
  unfold RevenuePlanning._calculate_forecast_confidence. split.
  - rewrite map_map. cbn [RevenuePlanning.ci_forecast].
    generalize 0%nat. induction forecast_data as [|e l IH]; intros n; [reflexivity|].
    cbn [List.length seq combine map snd]. f_equal. apply IH.
  - apply Forall_map_intro. intros p. apply max0_nonneg.
Qed.

(** X14.  The linear and polynomial trends of the revenue planner return,
    for a history that is not empty, one interval for each forecast month,
    around that month's forecast: [0 <= lower <= forecast <= upper]. *)
Theorem trend_intervals_enclose_forecast
    (historical_data : list RevenuePlanning.HistoricalRevenue)
    (params : RevenuePlanning.Params)
    (Hne : historical_data <> [])
    (Htype : RevenuePlanning.get (RevenuePlanning.trend_type params) "linear" = "linear"
             \/ RevenuePlanning.get (RevenuePlanning.trend_type params) "linear"
                = "polynomial") :
  exists t,
    RevenuePlanning._trend_analysis_forecast np_sqrt py_pow np_polyfit
      _get_forecast_period historical_data params = Ok t
    /\ map RevenuePlanning.ci_forecast (RevenuePlanning.confidence_intervals t)
       = map RevenuePlanning.forecast (RevenuePlanning.forecast_data t)
    /\ Forall (fun ci => 0 <= RevenuePlanning.lower ci
                         /\ RevenuePlanning.lower ci <= RevenuePlanning.ci_forecast ci
                         /\ RevenuePlanning.ci_forecast ci <= RevenuePlanning.upper ci)
              (RevenuePlanning.confidence_intervals t).
Proof.
  unfold RevenuePlanning._trend_analysis_forecast.
  destruct (trend_floor py_pow np_polyfit _get_forecast_period
              (map RevenuePlanning.revenue historical_data) params)
    as [data [E [_ F]]]; [|exact Htype|].
  { destruct historical_data; [congruence | discriminate]. }
  rewrite E. cbn [bind]. eexists. split; [reflexivity|].
  cbn [RevenuePlanning.confidence_intervals RevenuePlanning.forecast_data].
  set (c := RevenuePlanning.get _ _).
  destruct (forecast_confidence_forecasts data historical_data c) as [Hf Hl].
  split; [exact Hf|].
  pose proof (forecast_confidence_ordered np_sqrt np_sqrt_nonneg data historical_data c F)
    as Ho.
  rewrite Forall_forall in *. intros ci Hci.
  split; [now apply Hl | now apply Ho].
Qed.

Lemma route_lower_nonneg
    (forecast_data historical_data : list PlanningRoutes.HistoricalData) (c : Q) :
  Forall (fun r => 0 <= PlanningRoutes.revenue r) forecast_data ->
  Forall (fun iv => 0 <= PlanningRoutes.lower iv)
         (PlanningRoutes._calculate_confidence_intervals np_sqrt
            forecast_data historical_data c).
Proof.
  intros Hf. unfold PlanningRoutes._calculate_confidence_intervals.
  destruct (_ <? 3)%nat.
  - rewrite Forall_forall in *. intros iv Hiv. apply in_map_iff in Hiv.
    destruct Hiv as [d [<- Hin]]. specialize (Hf d Hin). cbn. nra.
  - apply Forall_map_intro. intros p. apply max0_nonneg.
Qed.

(** X15.  In the forecast route, whatever the history and the method, the
    intervals computed for the generated forecast enclose it:
    [0 <= lower <= forecast <= upper] for every forecast month (for a
    growth rate of -100 percent or more, below which the route raises). *)
Theorem route_intervals_enclose_forecast
    (historical_data : list PlanningRoutes.HistoricalData) (months : nat)
    (gm : PlanningRoutes.RevenueGrowthModel)
    (Hrate : 0 <= 1 + PlanningRoutes.base_growth_rate gm) :
  exists rows,
    PlanningRoutes._generate_forecast py_pow historical_data months gm = Ok rows
    /\ Forall (fun iv => 0 <= PlanningRoutes.lower iv
                         /\ PlanningRoutes.lower iv <= PlanningRoutes.i_forecast iv
                         /\ PlanningRoutes.i_forecast iv <= PlanningRoutes.upper iv)
              (PlanningRoutes._calculate_confidence_intervals np_sqrt rows
                 historical_data (PlanningRoutes.confidence_level gm)).
Proof.
  destruct (generate_forecast_floor py_pow historical_data months gm Hrate)
    as [rows [E F]].
  exists rows. split; [exact E|].
  pose proof (route_intervals_ordered np_sqrt np_sqrt_nonneg rows historical_data
                (PlanningRoutes.confidence_level gm) F) as Ho.
  pose proof (route_lower_nonneg rows historical_data
                (PlanningRoutes.confidence_level gm) F) as Hl.
  rewrite Forall_forall in *. intros iv Hiv. split; [now apply Hl | now apply Ho].
Qed.

End Enclosed.

(** X14 at six months of revenue and the default parameters. *)
Lemma trend_intervals_enclose_forecast_witness :
  let history :=
    map (fun r => {| RevenuePlanning.year := 2024; RevenuePlanning.month := 1;
                     RevenuePlanning.period := "2024-01";
                     RevenuePlanning.revenue := r;
                     RevenuePlanning.type_ := "actual" |})
        [100; 120; 130; 150; 170; 200] in
  (forall x, 0 <= sqrt6 x) /\ history <> [] /\
  (RevenuePlanning.get (RevenuePlanning.trend_type Fixtures.default_params) "linear"
   = "linear"
   \/ RevenuePlanning.get (RevenuePlanning.trend_type Fixtures.default_params) "linear"
      = "polynomial") /\
  exists t,
    RevenuePlanning._trend_analysis_forecast sqrt6 pow1 polyfit_line forecast_period
      history Fixtures.default_params = Ok t
    /\ map RevenuePlanning.ci_forecast (RevenuePlanning.confidence_intervals t)
       = map RevenuePlanning.forecast (RevenuePlanning.forecast_data t)
    /\ Forall (fun ci => 0 <= RevenuePlanning.lower ci
                         /\ RevenuePlanning.lower ci <= RevenuePlanning.ci_forecast ci
                         /\ RevenuePlanning.ci_forecast ci <= RevenuePlanning.upper ci)
              (RevenuePlanning.confidence_intervals t).
Proof.
  cbv zeta. split; [exact sqrt6_nonneg|]. split; [discriminate|].
  split; [left; reflexivity|].
  apply (trend_intervals_enclose_forecast sqrt6 pow1 polyfit_line forecast_period
           sqrt6_nonneg); [discriminate | left; reflexivity].
Defined.

(** X15 at four months of history and a linear growth model. *)
Lemma route_intervals_enclose_forecast_witness :
  let history :=
    map (fun r => {| PlanningRoutes.year := 2024; PlanningRoutes.month := fst r;
                     PlanningRoutes.period := format_period 2024 (fst r);
                     PlanningRoutes.revenue := snd r;
                     PlanningRoutes.type_ := "actual" |})
        [(9%Z, 400); (10%Z, 300); (11%Z, 200); (12%Z, 100)] in
  let gm := {| PlanningRoutes.method := "linear";
               PlanningRoutes.base_growth_rate := 15 # 100;
               PlanningRoutes.seasonality_factors := None;
               PlanningRoutes.confidence_level := 95 # 100 |} in
  (forall x, 0 <= sqrt6 x) /\ 0 <= 1 + PlanningRoutes.base_growth_rate gm /\
  exists rows,
    PlanningRoutes._generate_forecast pow1 history 6 gm = Ok rows
    /\ Forall (fun iv => 0 <= PlanningRoutes.lower iv
                         /\ PlanningRoutes.lower iv <= PlanningRoutes.i_forecast iv
                         /\ PlanningRoutes.i_forecast iv <= PlanningRoutes.upper iv)
              (PlanningRoutes._calculate_confidence_intervals sqrt6 rows
                 history (PlanningRoutes.confidence_level gm)).
Proof.
  cbv zeta. split; [exact sqrt6_nonneg|]. split; [vm_compute; discriminate|].
  apply (route_intervals_enclose_forecast sqrt6 pow1 sqrt6_nonneg).
  vm_compute. discriminate.
Defined.

(** *** The calendar of the forecast route *)

Lemma month_year_step (last_year last_month : Z) (i : nat) :
  (1 <= PlanningRoutes.month_at last_month i <= 12)%Z
  /\ (PlanningRoutes.year_at last_year last_month i * 12
      + PlanningRoutes.month_at last_month i
      = last_year * 12 + last_month + Z.of_nat i)%Z.
Proof.
  unfold PlanningRoutes.month_at, PlanningRoutes.year_at.
  pose proof (Z.div_mod (last_month + Z.of_nat i - 1) 12 ltac:(lia)) as Hd.
  pose proof (Z.mod_pos_bound (last_month + Z.of_nat i - 1) 12 ltac:(lia)) as Hm.
  lia.
Qed.

Section Calendar.
Variable py_pow : Q -> Q -> Q.

Lemma calendar_of_rows (last_year last_month : Z) (months : nat) (f : nat -> Q) :
  let rows := map (fun i => PlanningRoutes.forecast_row last_year last_month i (f i))
                  (seq 1 months) in
  map (fun r => (PlanningRoutes.year r * 12 + PlanningRoutes.month r)%Z) rows
  = map (fun i => (last_year * 12 + last_month + Z.of_nat i)%Z) (seq 1 months)
  /\ Forall (fun r => (1 <= PlanningRoutes.month r <= 12)%Z
                      /\ PlanningRoutes.type_ r = "forecast"
                      /\ PlanningRoutes.period r
                         = format_period (PlanningRoutes.year r) (PlanningRoutes.month r))
            rows.
Proof.
  cbv zeta. split.
  - rewrite map_map. apply map_ext. intros i.
    cbn [PlanningRoutes.forecast_row PlanningRoutes.year PlanningRoutes.month].
    exact (proj2 (month_year_step last_year last_month i)).
  - apply Forall_map_intro. intros i.
    cbn [PlanningRoutes.forecast_row PlanningRoutes.year PlanningRoutes.month
         PlanningRoutes.type_ PlanningRoutes.period].
    split; [exact (proj1 (month_year_step last_year last_month i)) | now split].
Qed.

(** X16.  For a history that is not empty, the methods linear, exponential
    and seasonal return [months] rows that continue the calendar of the
    last historical period: row [i] is [i] months after it, its month lies in
    1..12, its period is written year-month, and its type is "forecast". *)
Theorem forecast_rows_continue_calendar
    (historical_data : list PlanningRoutes.HistoricalData) (months : nat)
    (gm : PlanningRoutes.RevenueGrowthModel)
    (last_period : PlanningRoutes.HistoricalData)
    (Hlast : exists earlier, historical_data = (earlier ++ [last_period])%list)
    (Hmethod : known_method (PlanningRoutes.method gm) = true)
    (Hrate : 0 <= 1 + PlanningRoutes.base_growth_rate gm) :
  exists rows,
    PlanningRoutes._generate_forecast py_pow historical_data months gm = Ok rows
    /\ map (fun r => (PlanningRoutes.year r * 12 + PlanningRoutes.month r)%Z) rows
       = map (fun i => (PlanningRoutes.year last_period * 12
                        + PlanningRoutes.month last_period + Z.of_nat i)%Z)
             (seq 1 months)
    /\ Forall (fun r => (1 <= PlanningRoutes.month r <= 12)%Z
                        /\ PlanningRoutes.type_ r = "forecast"
                        /\ PlanningRoutes.period r
                           = format_period (PlanningRoutes.year r) (PlanningRoutes.month r))
              rows.
Proof.
  destruct Hlast as [earlier ->].
  assert (Hl : forall d, last (earlier ++ [last_period]) d = last_period)
    by (intros; apply last_last).
  assert (Hexp : forall g,
    0 <= 1 + PlanningRoutes.base_growth_rate g ->
    exists rows,
      PlanningRoutes.exponential_forecast py_pow (earlier ++ [last_period]) months g
      = Ok rows
      /\ map (fun r => (PlanningRoutes.year r * 12 + PlanningRoutes.month r)%Z) rows
         = map (fun i => (PlanningRoutes.year last_period * 12
                          + PlanningRoutes.month last_period + Z.of_nat i)%Z)
               (seq 1 months)
      /\ Forall (fun r => (1 <= PlanningRoutes.month r <= 12)%Z
                          /\ PlanningRoutes.type_ r = "forecast"
                          /\ PlanningRoutes.period r
                             = format_period (PlanningRoutes.year r)
                                 (PlanningRoutes.month r))
                rows).
  { intros g Hg. unfold PlanningRoutes.exponential_forecast.
    apply Qlt_bool_false_iff in Hg. rewrite Hg, Hl. cbn [andb].
    eexists. split; [reflexivity|]. apply calendar_of_rows. }
  unfold PlanningRoutes._generate_forecast.
  destruct (earlier ++ [last_period])%list as [|h t] eqn:Eh;
    [destruct earlier; discriminate|]. rewrite <- Eh in *.
  rewrite Hl.
  unfold known_method in Hmethod.
  destruct (String.eqb (PlanningRoutes.method gm) "linear").
  { eexists. split; [reflexivity|]. apply calendar_of_rows. }
  destruct (String.eqb (PlanningRoutes.method gm) "exponential");
    [now apply Hexp|].
  destruct (String.eqb (PlanningRoutes.method gm) "seasonal"); [|discriminate].
  destruct (12 <=? _)%nat.
  - eexists. split; [reflexivity|]. apply calendar_of_rows.
  - apply Hexp. exact Hrate.
Qed.

End Calendar.

(** X16 at a history ending in November 2024 and the exponential method:
    the forecast crosses the year end. *)
Lemma forecast_rows_continue_calendar_witness :
  let last_period :=
    {| PlanningRoutes.year := 2024; PlanningRoutes.month := 11;
       PlanningRoutes.period := "2024-11"; PlanningRoutes.revenue := 200;
       PlanningRoutes.type_ := "actual" |} in
  let history :=
    [ {| PlanningRoutes.year := 2024; PlanningRoutes.month := 10;
         PlanningRoutes.period := "2024-10"; PlanningRoutes.revenue := 100;
         PlanningRoutes.type_ := "actual" |};
      last_period ] in
  let gm := {| PlanningRoutes.method := "exponential";
               PlanningRoutes.base_growth_rate := 15 # 100;
               PlanningRoutes.seasonality_factors := None;
               PlanningRoutes.confidence_level := 95 # 100 |} in
  exists rows,
    PlanningRoutes._generate_forecast pow1 history 3 gm = Ok rows
    /\ map (fun r => (PlanningRoutes.year r * 12 + PlanningRoutes.month r)%Z) rows
       = map (fun i => (PlanningRoutes.year last_period * 12
                        + PlanningRoutes.month last_period + Z.of_nat i)%Z)
             (seq 1 3)
    /\ Forall (fun r => (1 <= PlanningRoutes.month r <= 12)%Z
                        /\ PlanningRoutes.type_ r = "forecast"
                        /\ PlanningRoutes.period r
                           = format_period (PlanningRoutes.year r) (PlanningRoutes.month r))
              rows.
Proof.
  cbv zeta.
  apply (forecast_rows_continue_calendar pow1).
  - eexists [_]. reflexivity.
  - reflexivity.
  - vm_compute. discriminate.
Defined.

End IntervalFacts.

(** ** Pipeline forecast *)

Module PipelineFacts.
Import Stats RevenuePipeline Runtime PyFacts ContainerFacts.

Section Totals.
Variable f : Bucket -> Q.

Lemma sum_set_absent (k : string) (v : Bucket) (d : dict Bucket) :
  dict_get k d = None ->
  Qsum (map f (dict_values (dict_set k v d))) == Qsum (map f (dict_values d)) + f v.
Proof.
  induction d as [|[k' b] d IH]; intros H.
  - cbn. unfold Qsum. cbn. lra.
  - cbn in H. cbn [dict_set]. destruct (String.eqb k k'); [discriminate|].
    unfold dict_values in *. cbn [map snd]. rewrite !Qsum_cons, IH by exact H. lra.
Qed.

Lemma sum_set_present (k : string) (v b : Bucket) (d : dict Bucket) :
  dict_get k d = Some b ->
  Qsum (map f (dict_values (dict_set k v d)))
  == Qsum (map f (dict_values d)) - f b + f v.
Proof.
  induction d as [|[k' b'] d IH]; intros H; [discriminate|].
  cbn in H. cbn [dict_set]. destruct (String.eqb k k').
  - injection H as ->. unfold dict_values. cbn [map snd]. rewrite !Qsum_cons. lra.
  - unfold dict_values in *. cbn [map snd]. rewrite !Qsum_cons, IH by exact H. lra.
Qed.

(** What an opportunity adds to the field [f] of its bucket. *)
Variable g : Opportunity -> Q.
Hypothesis f_zero :
  f {| pipeline_value := 0; weighted_value := 0; opportunity_count := 0 |} == 0.
Hypothesis f_add : forall b opp,
  f {| pipeline_value := pipeline_value b + amount opp;
       weighted_value := weighted_value b + amount opp * (probability opp / 100);
       opportunity_count := (opportunity_count b + 1)%nat |}
  == f b + g opp.

Lemma add_opportunity_sum (d : dict Bucket) (opp : Opportunity) :
  Qsum (map f (dict_values (add_opportunity d opp)))
  == Qsum (map f (dict_values d)) + g opp.
Proof.
  unfold add_opportunity, dict_mem.
  set (k := format_period (close_year opp) (close_month opp)).
  destruct (dict_get k d) as [b|] eqn:E.
  - rewrite E, (sum_set_present k _ b d E), f_add. lra.
  - rewrite dict_get_set_same.
    rewrite (sum_set_present k _ _ _ (dict_get_set_same k _ d)).
    rewrite (sum_set_absent k _ d E), f_add. lra.
Qed.

Lemma fold_opportunities_sum (opps : list Opportunity) :
  forall d,
    Qsum (map f (dict_values (fold_left add_opportunity opps d)))
    == Qsum (map f (dict_values d)) + Qsum (map g opps).
Proof.
  induction opps as [|opp opps IH]; intros d.
  - cbn [fold_left map]. change (Qsum []) with 0. lra.
  - cbn [fold_left map]. rewrite IH, add_opportunity_sum, Qsum_cons. lra.
Qed.

End Totals.

Section Forecast.
Variable _get_forecast_period : nat -> string.

(** X17.  Bucketing by month loses nothing: the summary's total pipeline is
    the sum of the amounts of all opportunities and its weighted total the
    sum of [amount * probability / 100].  The forecast holds one entry for
    each month, and with no opportunity every entry is zero. *)
Theorem pipeline_totals_preserved (pipeline_data : list Opportunity) (months : nat) :
  let r := _pipeline_based_forecast _get_forecast_period pipeline_data months in
  total_pipeline (pipeline_summary r) == Qsum (map amount pipeline_data)
  /\ total_weighted (pipeline_summary r)
     == Qsum (map (fun opp => amount opp * (probability opp / 100)) pipeline_data)
  /\ map pe_month (pf_forecast_data r) = seq 1 months
  /\ Forall (fun e => pe_forecast e = 0 /\ pe_pipeline_value e = 0
                      /\ pe_opportunity_count e = 0%nat)
            (pf_forecast_data
               (_pipeline_based_forecast _get_forecast_period [] months)).
Proof.
  cbv zeta. unfold _pipeline_based_forecast.
  cbn [pipeline_summary total_pipeline total_weighted pf_forecast_data].
  split; [|split; [|split]].
  - rewrite (fold_opportunities_sum pipeline_value amount); [|reflexivity|].
    + change (Qsum (map pipeline_value (dict_values []))) with 0. lra.
    + intros b opp. reflexivity.
  - rewrite (fold_opportunities_sum weighted_value
               (fun opp => amount opp * (probability opp / 100))); [|reflexivity|].
    + change (Qsum (map weighted_value (dict_values []))) with 0. lra.
    + intros b opp. reflexivity.
  - rewrite map_map. cbn [pe_month]. apply map_id.
  - apply Forall_forall. intros e He. apply in_map_iff in He.
    destruct He as [i [<- _]]. cbn. repeat split.
Qed.

End Forecast.

End PipelineFacts.

(** ** Waterfall analysis *)

Module WaterfallFacts.
Import Forecasting Waterfall Runtime PyFacts ContainerFacts.

Section Sorting.
Context {A : Type}.
Variable le : A -> A -> bool.
Hypothesis le_total : forall a b, le a b = false -> le b a = true.

Lemma insert_by_perm (x : A) (l : list A) : Permutation (insert_by le x l) (x :: l).
Proof.
  induction l as [|y l IH]; [reflexivity|].
  cbn. destruct (le y x); [|reflexivity].
  rewrite IH. apply perm_swap.
Qed.

Lemma sort_by_perm (l : list A) : Permutation (sort_by le l) l.
Proof.
  unfold sort_by.
  assert (H : forall acc,
    Permutation (fold_left (fun acc x => insert_by le x acc) l acc) (l ++ acc)).
  { induction l as [|x l IH]; intros acc; [reflexivity|].
    cbn [fold_left app]. rewrite IH, insert_by_perm. symmetry. apply Permutation_middle. }
  rewrite H. now rewrite app_nil_r.
Qed.

Lemma insert_by_hd (y x : A) (l : list A) :
  le y x = true -> HdRel (fun a b => le a b = true) y l ->
  HdRel (fun a b => le a b = true) y (insert_by le x l).
Proof.
  intros Hyx H. destruct l as [|z l]; cbn; [now constructor|].
  destruct (le z x); [|now constructor].
  inversion H; subst. now constructor.
Qed.

Lemma insert_by_sorted (x : A) (l : list A) :
  Sorted (fun a b => le a b = true) l ->
  Sorted (fun a b => le a b = true) (insert_by le x l).
Proof.
  induction 1 as [|y l Hs IH Hh]; [repeat constructor|].
  cbn. destruct (le y x) eqn:E.
  - constructor; [exact IH | now apply insert_by_hd].
  - constructor; [now constructor | constructor; now apply le_total].
Qed.

Lemma sort_by_sorted (l : list A) : Sorted (fun a b => le a b = true) (sort_by le l).
Proof.
  unfold sort_by.
  assert (H : forall acc, Sorted (fun a b => le a b = true) acc ->
    Sorted (fun a b => le a b = true) (fold_left (fun acc x => insert_by le x acc) l acc)).
  { induction l as [|x l IH]; intros acc Hacc; [exact Hacc|].
    cbn [fold_left]. apply IH. now apply insert_by_sorted. }
  apply H. constructor.
Qed.

End Sorting.

Lemma Qsum_perm (l l' : list Q) : Permutation l l' -> Qsum l == Qsum l'.
Proof.
  induction 1 as [|x l l' _ IH|x y l|l l' l'' _ IH1 _ IH2].
  - reflexivity.
  - rewrite !Qsum_cons, IH. reflexivity.
  - rewrite !Qsum_cons. lra.
  - now rewrite IH1.
Qed.

Lemma larger_impact_total (a b : Component) :
  larger_impact a b = false -> larger_impact b a = true.
Proof.
  unfold larger_impact. intros H. apply Qle_bool_iff.
  destruct (Qle_bool (Qabs (impact b)) (Qabs (impact a))) eqn:E; [discriminate|].
  apply Qlt_le_weak. apply Qnot_le_lt. intros Hle. apply Qle_bool_iff in Hle. congruence.
Qed.

Section Analysis.
Variable impact_of : string -> Q -> string -> Q.

Lemma components_loop_facts (metric_name : string) (changes : dict Change) :
  forall comps,
    components_loop impact_of metric_name changes = Ok comps ->
    Forall (fun c => ~ change c == 0
                     /\ change c = new_value c - c_base_value c
                     /\ (impact_pct c == 100 \/ impact_pct c == - (100) \/ impact_pct c == 0))
           comps.
Proof.
  induction changes as [|[driver_id c] rest IH]; intros comps H.
  - cbn in H. injection H as <-. constructor.
  - cbn [components_loop] in H.
    destruct (comp_value c) as [comp|]; [|discriminate].
    destruct (base_value c) as [base|]; [|discriminate].
    cbn [of_option bind] in H.
    destruct (Qeq_bool (comp - base) 0) eqn:E; cbn [negb] in H; [now apply IH|].
    destruct (components_loop impact_of metric_name rest) as [more|e]; [|discriminate].
    cbn [bind] in H. injection H as <-.
    constructor; [|now apply IH].
    cbn [change new_value c_base_value impact_pct].
    split; [intros H0; apply Qeq_bool_iff in H0; congruence|].
    split; [reflexivity|].
    set (i := impact_of driver_id (comp - base) metric_name).
    unfold truthy. destruct (Qeq_bool i 0) eqn:Ei; cbn [negb]; [right; right; reflexivity|].
    assert (Hi : ~ i == 0) by (intros H0; apply Qeq_bool_iff in H0; congruence).
    destruct (Qlt_le_dec i 0) as [Hneg | Hpos].
    + right. left. rewrite (Qabs_neg i) by lra. field. lra.
    + left. rewrite (Qabs_pos i) by lra. field. exact Hi.
Qed.

(** X18.  A waterfall analysis that succeeds lists one component for each
    driver whose value changed between the two periods and none for an
    unchanged driver; the components come largest absolute impact first;
    every impact percentage is 100, -100 or 0; and the total impact is the
    sum of the impacts of the components. *)
Theorem waterfall_components_ranked (driver_data : list DriverValueRow)
    (base_id comp_id metric_name : string) (w : WaterfallAnalysis)
    (Hok : create_waterfall_analysis impact_of driver_data base_id comp_id metric_name
           = Ok w) :
  Sorted (fun a b => Qabs (impact b) <= Qabs (impact a)) (waterfall_components w)
  /\ Forall (fun c => ~ change c == 0
                      /\ change c = new_value c - c_base_value c
                      /\ (impact_pct c == 100 \/ impact_pct c == - (100)
                          \/ impact_pct c == 0))
            (waterfall_components w)
  /\ exists comps,
       components_loop impact_of metric_name
         (fold_left (record_row base_id) driver_data []) = Ok comps
       /\ Permutation (waterfall_components w) comps
       /\ total_impact w == Qsum (map impact comps).
Proof.
  unfold create_waterfall_analysis in Hok.
  destruct (components_loop impact_of metric_name _) as [comps|e] eqn:E; [|discriminate].
  cbn [bind] in Hok. injection Hok as <-.
  cbn [waterfall_components total_impact].
  pose proof (sort_by_perm larger_impact comps) as Hp.
  split; [|split].
  - clear Hp E.
    pose proof (sort_by_sorted larger_impact larger_impact_total comps) as Hs.
    induction Hs as [|a l Hs IH Hh]; constructor; [exact IH|].
    destruct Hh as [|b l' Hab]; constructor. now apply Qle_bool_iff.
  - apply (Permutation_Forall (Permutation_sym Hp)).
    exact (components_loop_facts metric_name _ comps E).
  - exists comps. split; [reflexivity|]. split; [exact Hp|].
    apply Qsum_perm. now apply Permutation_map.
Qed.

End Analysis.

End WaterfallFacts.
